(** * GSRTC dashboard ([app.py]): the demand-forecasting page and the upload page

    A shallow embedding of the two pages of [app.py] that compute something:
    the "Demand Forecasting" page (aggregation by date, stationarity check,
    train/test split, SARIMA fit, evaluation, future dates) and the
    "Upload Data" page (column check and append to the CSV store).

    Conventions.
    - The dataset is the frame that [pd.read_csv] returns when the [Date]
      column parses as dates and [Seats_Booked] as integers: a [Timestamp]
      is an integer count of nanoseconds ([Z]), a missing date ([NaT]) is
      [None], and [Seats_Booked] is an [int64] column, whose sums wrap
      around at 64 bits ([wrap64]).
    - On the page, Python floats that only carry a library result (the ADF
      p-value, the SARIMA predictions) are the numbers they denote: the
      p-value a rational, predictions real numbers.  The float computations
      the script itself performs are modelled bit for bit:
      [int(len(df_daily) * 0.8)] in [Float64], and the score of line 115 in
      [Binary64] ([evaluate64]).
    - A frame read from CSV text holds typed cells ([cell]); [to_csv]
      writes their texts, quoted where the csv writer quotes.
    - statsmodels, numpy's summation order, [pd.read_csv] and streamlit are
      outside the repository; their entry points are the [Variable]s of the
      sections that use them, and what a theorem needs of them is one of its
      hypotheses.  [forecast] and [get_forecast] stand for calls that
      return; the page asks them for at least one step. *)

From Stdlib Require Import ZArith List Sorted Permutation QArith Reals Lia Lra Bool
  String Ascii DecimalString.
From stdpp Require Import gmap strings.
Import ListNotations.
Open Scope Z_scope.

(* ===================================================================== *)
(** * Python exceptions *)
(* ===================================================================== *)

Inductive exn : Type :=
| IndexError                (* [.iloc[-1]] on an empty column *)
| ValueError                (* sklearn input validation, pandas [usecols] *)
| LibraryError.             (* anything raised inside statsmodels *)

Inductive result (A : Type) : Type :=
| Ok (a : A)
| Raise (e : exn).
Arguments Ok {A} a.
Arguments Raise {A} e.

Definition bind {A B : Type} (r : result A) (k : A -> result B) : result B :=
  match r with
  | Ok a => k a
  | Raise e => Raise e
  end.

Notation "'let*' x ':=' r 'in' k" := (bind r (fun x => k))
  (at level 10, x name, r at level 100, k at level 200).

(* ===================================================================== *)
(** * Binary64 arithmetic on non-negative values *)
(* ===================================================================== *)

(** [len(df_daily) * 0.8] converts the length to a float and multiplies by
    the double nearest to 0.8; [int(...)] truncates.  Only non-negative
    finite values occur, so a float is a pair [mant * 2 ^ expo]. *)
Module Float64.

Record float : Type := mk { mant : Z; expo : Z }.

Definition prec : Z := 53.

(** Round-to-nearest, ties-to-even, of [m * 2 ^ e] to a 53-bit
    significand. *)
Definition round (m e : Z) : float :=
  let s := Z.log2 m + 1 - prec in
  if s <=? 0 then mk m e
  else
    let q := m / 2 ^ s in
    let r := m mod 2 ^ s in
    let half := 2 ^ (s - 1) in
    let q' := if (half <? r) || ((half =? r) && Z.odd q) then q + 1 else q in
    mk q' (e + s).

Definition of_int (n : Z) : float := round n 0.

Definition mul (x y : float) : float :=
  round (mant x * mant y) (expo x + expo y).

(** Python's [int(x)]: truncation (here: floor, the value is >= 0). *)
Definition to_int (x : float) : Z :=
  if 0 <=? expo x then mant x * 2 ^ expo x else mant x / 2 ^ (- expo x).

(** The literal [0.8] is 0x3FE999999999999A. *)
Definition lit_0_8 : float := mk 7205759403792794 (-53).

(** The literal [0.05] is 0x3FA999999999999A, as a rational. *)
Definition lit_0_05 : Q := 7205759403792794 # (2 ^ 57).

End Float64.

(* ===================================================================== *)
(** * Binary64 arithmetic with signs, subnormals, infinities and NaN *)
(* ===================================================================== *)

(** Line 115 subtracts, squares, adds, divides and takes a square root in
    float64; each operation returns the binary64 value nearest to the exact
    result (ties to even), with gradual underflow and overflow to
    infinity. *)
Module Binary64.

(** A binary64 value: [finite m e] is the number m * 2^e; the two zeros
    are not told apart.  Every pair stands for its number, and the
    operations return binary64 numbers. *)
Inductive float : Type :=
| finite (m e : Z)
| infinity (negative : bool)
| nan.

(** The binary64 number nearest to m * 2^e, ties to even: 53 significant
    bits, the unit in the last place never below 2^-1074, and infinity from
    2^1024 on. *)
Definition round_to (m e : Z) : float :=
  if m =? 0 then finite 0 0
  else
    let a := Z.abs m in
    let ulp := Z.max (e + Z.log2 a + 1 - 53) (-1074) in
    let q :=
      if e <? ulp then
        let k := ulp - e in
        let q0 := a / 2 ^ k in
        let r := a mod 2 ^ k in
        let half := 2 ^ (k - 1) in
        if r <? half then q0
        else if half <? r then q0 + 1
        else if Z.even q0 then q0 else q0 + 1
      else a * 2 ^ (e - ulp) in
    if 1024 <=? Z.log2 q + ulp then infinity (m <? 0)
    else finite (Z.sgn m * q) ulp.

(** Conversion of an integer. *)
Definition of_int (z : Z) : float := round_to z 0.

Definition add (x y : float) : float :=
  match x, y with
  | nan, _ | _, nan => nan
  | infinity s, infinity t => if Bool.eqb s t then infinity s else nan
  | infinity s, finite _ _ => infinity s
  | finite _ _, infinity t => infinity t
  | finite m1 e1, finite m2 e2 =>
      let e := Z.min e1 e2 in
      round_to (m1 * 2 ^ (e1 - e) + m2 * 2 ^ (e2 - e)) e
  end.

Definition sub (x y : float) : float :=
  match x, y with
  | nan, _ | _, nan => nan
  | infinity s, infinity t => if Bool.eqb s t then nan else infinity s
  | infinity s, finite _ _ => infinity s
  | finite _ _, infinity t => infinity (negb t)
  | finite m1 e1, finite m2 e2 =>
      let e := Z.min e1 e2 in
      round_to (m1 * 2 ^ (e1 - e) - m2 * 2 ^ (e2 - e)) e
  end.

Definition mul (x y : float) : float :=
  match x, y with
  | nan, _ | _, nan => nan
  | infinity s, infinity t => infinity (xorb s t)
  | infinity s, finite m _ =>
      if m =? 0 then nan else infinity (xorb s (m <? 0))
  | finite m _, infinity t =>
      if m =? 0 then nan else infinity (xorb (m <? 0) t)
  | finite m1 e1, finite m2 e2 => round_to (m1 * m2) (e1 + e2)
  end.

(** Quotient and square root are rounded once: the exact result is cut
    to more than 64 bits, with a last bit that records whether anything was
    cut off, and then rounded. *)
Definition div (x y : float) : float :=
  match x, y with
  | nan, _ | _, nan => nan
  | infinity _, infinity _ => nan
  | infinity s, finite m _ => infinity (xorb s (m <? 0))
  | finite _ _, infinity _ => finite 0 0
  | finite m1 e1, finite m2 e2 =>
      if m2 =? 0 then
        if m1 =? 0 then nan else infinity (m1 <? 0)
      else if m1 =? 0 then finite 0 0
      else
        let a := Z.abs m1 in
        let b := Z.abs m2 in
        let k := Z.max 0 (64 + Z.log2 b - Z.log2 a) in
        let n := a * 2 ^ k in
        let q := n / b in
        let sticky := if n mod b =? 0 then 0 else 1 in
        round_to (Z.sgn m1 * Z.sgn m2 * (2 * q + sticky)) (e1 - e2 - k - 1)
  end.

Definition sqrt (x : float) : float :=
  match x with
  | nan => nan
  | infinity s => if s then nan else infinity false
  | finite m e =>
      if m <? 0 then nan
      else if m =? 0 then finite 0 0
      else
        let k := 128 + e mod 2 in
        let n := m * 2 ^ k in
        let s := Z.sqrt n in
        let sticky := if s * s =? n then 0 else 1 in
        round_to (2 * s + sticky) ((e - k) / 2 - 1)
  end.


(** Equality of the numbers two values stand for. *)
Definition eqb (x y : float) : bool :=
  match x, y with
  | finite m1 e1, finite m2 e2 =>
      let e := Z.min e1 e2 in
      m1 * 2 ^ (e1 - e) =? m2 * 2 ^ (e2 - e)
  | infinity s, infinity t => Bool.eqb s t
  | _, _ => false
  end.

End Binary64.

(* ===================================================================== *)
(** * Data frames of the forecasting page *)
(* ===================================================================== *)

(** One row of [updated_data.csv] as loaded with [usecols]; a [Date] cell
    that is empty in the file is [NaT], here [None]. *)
Record RawObservation : Type := {
  Date : option Z;
  Route_ID : string;
  Seats_Booked : Z;
  Fuel_Consumption_Liters : Q;
  Total_Seats : Z;
  Ticket_Price : Q
}.

(** [df_daily]: the columns [Date] and [Seats_Booked], row by row, and the
    column [Seats_Booked_Diff] when the script has added it ([None] in a cell
    is NaN). *)
Record DailyFrame : Type := {
  daily_rows : list (Z * Z);
  Seats_Booked_Diff : option (list (option Z))
}.

Definition len (df : DailyFrame) : nat := length (daily_rows df).

Definition col_Date (df : DailyFrame) : list Z := map fst (daily_rows df).
Definition col_Seats_Booked (df : DailyFrame) : list Z := map snd (daily_rows df).

(** [df[:k]] and [df[k:]]: positional row slices, every column alike. *)
Definition slice_to (k : nat) (df : DailyFrame) : DailyFrame :=
  {| daily_rows := firstn k (daily_rows df);
     Seats_Booked_Diff := option_map (firstn k) (Seats_Booked_Diff df) |}.

Definition slice_from (k : nat) (df : DailyFrame) : DailyFrame :=
  {| daily_rows := skipn k (daily_rows df);
     Seats_Booked_Diff := option_map (skipn k) (Seats_Booked_Diff df) |}.

(** Row-wise concatenation of two frames with the same columns. *)
Definition concat_frames (a b : DailyFrame) : DailyFrame :=
  {| daily_rows := daily_rows a ++ daily_rows b;
     Seats_Booked_Diff :=
       match Seats_Booked_Diff a, Seats_Booked_Diff b with
       | Some ca, Some cb => Some (ca ++ cb)
       | _, _ => None
       end |}.

(* ===================================================================== *)
(** * Train-test split (lines 99-100) *)
(* ===================================================================== *)

(** [train_size = int(len(df_daily) * 0.8)] *)
Definition train_size (n : nat) : nat :=
  Z.to_nat (Float64.to_int
              (Float64.mul (Float64.of_int (Z.of_nat n)) Float64.lit_0_8)).

(** [train, test = df_daily[:train_size], df_daily[train_size:]] *)
Definition train_test_split (df_daily : DailyFrame) : DailyFrame * DailyFrame :=
  let k := train_size (len df_daily) in
  (slice_to k df_daily, slice_from k df_daily).

(* ===================================================================== *)
(** * Timestamps (lines 124-125) *)
(* ===================================================================== *)

(** [pd.Timedelta(days=d)], in nanoseconds. *)
Definition Timedelta (days : Z) : Z := days * 86400000000000.

(** Midnight of the civil date [y-m-d] (proleptic Gregorian calendar), the
    value [parse_dates] gives a date cell. *)
Definition days_from_civil (y m d : Z) : Z :=
  let y' := if m <=? 2 then y - 1 else y in
  let era := y' / 400 in
  let yoe := y' - era * 400 in
  let doy := (153 * (if 2 <? m then m - 3 else m + 9) + 2) / 5 + d - 1 in
  let doe := yoe * 365 + yoe / 4 - yoe / 100 + doy in
  era * 146097 + doe - 719468.

Definition Timestamp (y m d : Z) : Z := Timedelta (days_from_civil y m d).

(** [pd.date_range(start=start, periods=periods)]: the frequency defaults to
    one day. *)
Definition date_range (start : Z) (periods : nat) : list Z :=
  map (fun i => start + Timedelta (Z.of_nat i)) (seq 0 periods).

(** [col.iloc[-1]] *)
Definition iloc_last {A : Type} (col : list A) : result A :=
  match rev col with
  | [] => Raise IndexError
  | x :: _ => Ok x
  end.

(* ===================================================================== *)
(** * Aggregation by date (line 83) *)
(* ===================================================================== *)

(** [Seats_Booked] is an [int64] column: its cells lie in
    [-2^63 .. 2^63 - 1], and an addition that leaves this range wraps
    around. *)
Definition wrap64 (z : Z) : Z := (z + 2 ^ 63) mod 2 ^ 64 - 2 ^ 63.

Definition int64 (z : Z) : Prop := - 2 ^ 63 <= z < 2 ^ 63.

(** [groupby('Date')] leaves out the rows whose [Date] is missing
    ([dropna=True] is the default). *)
Fixpoint dropna_keys (rows : list (option Z * Z)) : list (Z * Z) :=
  match rows with
  | [] => []
  | (Some d, s) :: rest => (d, s) :: dropna_keys rest
  | (None, _) :: rest => dropna_keys rest
  end.

(** [groupby('Date').agg({'Seats_Booked': 'sum'})] keeps one group per
    distinct date, in ascending date order; the total of a group starts at
    zero and each row's seats are added to it in [int64] arithmetic. *)
Fixpoint group_add (d s : Z) (groups : list (Z * Z)) : list (Z * Z) :=
  match groups with
  | [] => [(d, wrap64 (0 + s))]
  | (d', s') :: rest =>
      if d <? d' then (d, wrap64 (0 + s)) :: groups
      else if d =? d' then (d', wrap64 (s' + s)) :: rest
      else (d', s') :: group_add d s rest
  end.

Definition add_row (groups : list (Z * Z)) (r : Z * Z) : list (Z * Z) :=
  group_add (fst r) (snd r) groups.

Definition groupby_sum (rows : list (option Z * Z)) : list (Z * Z) :=
  fold_left add_row (dropna_keys rows) [].

(** [sort_values(by='Date')]: rows in ascending date order, rows with equal
    dates in their original order. *)
Fixpoint insert_by_date (r : Z * Z) (sorted : list (Z * Z)) : list (Z * Z) :=
  match sorted with
  | [] => [r]
  | r' :: rest =>
      if fst r <=? fst r' then r :: sorted else r' :: insert_by_date r rest
  end.

Definition sort_values (rows : list (Z * Z)) : list (Z * Z) :=
  fold_right insert_by_date [] rows.

(** The whole chain of line 83 on the two columns it reads. *)
Definition daily_totals (rows : list (option Z * Z)) : list (Z * Z) :=
  sort_values (groupby_sum rows).

(** The rows of an aggregated frame as input of another aggregation: every
    one of them has its date. *)
Definition keyed (rows : list (Z * Z)) : list (option Z * Z) :=
  map (fun r => (Some (fst r), snd r)) rows.

Definition date_and_seats (r : RawObservation) : option Z * Z :=
  (Date r, Seats_Booked r).

Definition Aggregator (df : list RawObservation) : DailyFrame :=
  {| daily_rows := daily_totals (map date_and_seats df);
     Seats_Booked_Diff := None |}.

(** Dates strictly increasing from row to row. *)
Definition increasing_dates (rows : list (Z * Z)) : Prop :=
  StronglySorted Z.lt (map fst rows).

(** Sum of [Seats_Booked] over the rows dated [d]. *)
Definition seats_on (d : Z) (rows : list (Z * Z)) : Z :=
  fold_right Z.add 0 (map snd (List.filter (fun r => fst r =? d) rows)).

(** The rows of the dataset dated [d], and the rows that have a date. *)
Definition on_date (d : Z) (r : RawObservation) : bool :=
  match Date r with Some d' => d' =? d | None => false end.

Definition has_date (r : RawObservation) : bool :=
  match Date r with Some _ => true | None => false end.

(* ===================================================================== *)
(** * Differencing (line 93) *)
(* ===================================================================== *)

(** A pandas [Series]: values with their index labels. *)
Definition Series (A : Type) : Type := list (nat * A).

(** A column of a frame whose index is [0 .. n-1]. *)
Definition as_series {A : Type} (col : list A) : Series A :=
  combine (seq 0 (length col)) col.

Fixpoint diff_after (prev : Z) (s : Series Z) : Series (option Z) :=
  match s with
  | [] => []
  | (i, v) :: rest => (i, Some (v - prev)) :: diff_after v rest
  end.

(** [s.diff()]: NaN first, then each value minus its predecessor. *)
Definition Series_diff (s : Series Z) : Series (option Z) :=
  match s with
  | [] => []
  | (i, v) :: rest => (i, None) :: diff_after v rest
  end.

(** [s.dropna()]: the entries that are not NaN, labels kept. *)
Fixpoint dropna (s : Series (option Z)) : Series Z :=
  match s with
  | [] => []
  | (i, Some v) :: rest => (i, v) :: dropna rest
  | (_, None) :: rest => dropna rest
  end.

(** [s.loc[i]] as used by column assignment: the value labelled [i], NaN
    when the label is absent. *)
Fixpoint at_label (s : Series Z) (i : nat) : option Z :=
  match s with
  | [] => None
  | (j, v) :: rest => if Nat.eqb i j then Some v else at_label rest i
  end.

(** [df_daily["Seats_Booked_Diff"] = s]: the series is aligned on the
    frame's index, the frame keeps all its rows. *)
Definition assign_Seats_Booked_Diff (df : DailyFrame) (s : Series Z) : DailyFrame :=
  {| daily_rows := daily_rows df;
     Seats_Booked_Diff := Some (map (at_label s) (seq 0 (len df))) |}.

(** The first-order difference of a sequence, first (undefined) entry
    dropped: [value[i] - value[i-1]] for [i >= 1]. *)
Fixpoint first_difference (values : list Z) : list Z :=
  match values with
  | v0 :: ((v1 :: _) as rest) => (v1 - v0) :: first_difference rest
  | _ => []
  end.

(* ===================================================================== *)
(** * Evaluation metric (line 115) *)
(* ===================================================================== *)

Definition squared_errors (y_true y_pred : list R) : list R :=
  map (fun p => ((fst p - snd p) * (fst p - snd p))%R) (combine y_true y_pred).

Definition Rsum (l : list R) : R := fold_right Rplus 0%R l.

(** [sklearn.metrics.mean_squared_error] on the real numbers that the
    floats of the page model stand for: input validation rejects arrays of
    different lengths and empty arrays with [ValueError]; otherwise the mean
    of the squared differences.  Rounding, NaN and the infinities have no
    place among real numbers; the computation in float64, with sklearn's
    check for them, is [mean_squared_error64] below. *)
Definition mean_squared_error (y_true y_pred : list R) : result R :=
  if negb (length y_true =? length y_pred)%nat then Raise ValueError
  else if (length y_true =? 0)%nat then Raise ValueError
  else Ok (Rsum (squared_errors y_true y_pred) / INR (length y_true))%R.

(* ===================================================================== *)
(** * Evaluation in binary64 (lines 111-115) *)
(* ===================================================================== *)

(** The same lines with every number a float64, as numpy and sklearn
    compute them. *)
Section Evaluation64.
Import Binary64.




(** [np.add.reduce] *)
Variable np_sum : list float -> float.


Variable Model : Type.
Variable get_forecast : Model -> nat -> list float.




End Evaluation64.

(* ===================================================================== *)
(** * The "Demand Forecasting" page (lines 78-148) *)
(* ===================================================================== *)

Definition msg_not_stationary : string :=
  "Data is NOT stationary. Applied differencing.".
Definition msg_stationary : string :=
  "Data is stationary. No differencing applied.".

Section DemandForecasting.

(** statsmodels and streamlit. *)
Variable Model : Type.
(** [adfuller(series)]: the test statistic and the p-value (entries 0 and
    1 of the result tuple). *)
Variable adfuller : list Z -> result (Q * Q).
(** [SARIMAX(endog, order, seasonal_order).fit()] *)
Variable SARIMAX_fit : list Z -> Z * Z * Z -> Z * Z * Z * Z -> result Model.
(** [results.get_forecast(steps).predicted_mean], for a call that
    returns. *)
Variable get_forecast : Model -> nat -> list R.
(** [results.forecast(steps)], for a call that returns. *)
Variable forecast : Model -> nat -> list R.
(** [st.slider(label, min_value, max_value, value)]: the position of the
    slider in the current run; another run is another [st_slider]. *)
Variable st_slider : nat -> nat -> nat -> nat.

Record ForecastPage : Type := {
  df_daily : DailyFrame;
  p_value : Q;
  stationarity_message : string;
  train : DailyFrame;
  test : DailyFrame;
  sarima_result : Model;
  test_forecast_mean : list R;
  rmse : R;
  future_steps : nat;
  sarima_forecast_next : list R;
  future_dates : list Z
}.

(** Lines 86-88. *)
Definition adf_test (series : list Z) : result Q :=
  let* result := adfuller series in
  Ok (snd result).

(** Lines 91-96: the frame after the stationarity check, and the message
    written to the page. *)
Definition check_stationarity (df_daily : DailyFrame) (p_value : Q)
  : DailyFrame * string :=
  if negb (Qle_bool p_value Float64.lit_0_05) then
    (assign_Seats_Booked_Diff df_daily
       (dropna (Series_diff (as_series (col_Seats_Booked df_daily)))),
     msg_not_stationary)
  else (df_daily, msg_stationary).

(** Lines 103-106; [st.cache_resource] memoises the call and does not
    change its value. *)
Definition train_sarima (train_data : list Z) : result Model :=
  SARIMAX_fit train_data (1, 1, 1) (1, 1, 1, 60).

(** Lines 111-115. *)
Definition evaluate (sarima_result : Model) (test : DailyFrame)
  : result (list R * R) :=
  let test_forecast_mean := get_forecast sarima_result (len test) in
  let* mse := mean_squared_error (map IZR (col_Seats_Booked test))
                                 test_forecast_mean in
  Ok (test_forecast_mean, sqrt mse).

(** Lines 122-125 for a given number of steps. *)
Definition forecast_future (sarima_result : Model) (df_daily : DailyFrame)
    (future_steps : nat) : result (list R * list Z) :=
  let sarima_forecast_next := forecast sarima_result future_steps in
  let* last_date := iloc_last (col_Date df_daily) in
  Ok (sarima_forecast_next,
      date_range (last_date + Timedelta 1) future_steps).

Definition demand_forecasting (df : list RawObservation) : result ForecastPage :=
  let df_daily0 := Aggregator df in
  let* p_value := adf_test (col_Seats_Booked df_daily0) in
  let checked := check_stationarity df_daily0 p_value in
  let df_daily := fst checked in
  let split := train_test_split df_daily in
  let train := fst split in
  let test := snd split in
  let* sarima_result := train_sarima (col_Seats_Booked train) in
  let* evaluation := evaluate sarima_result test in
  let future_steps := st_slider 7 90 30 in
  let* future := forecast_future sarima_result df_daily future_steps in
  Ok {| df_daily := df_daily;
        p_value := p_value;
        stationarity_message := snd checked;
        train := train;
        test := test;
        sarima_result := sarima_result;
        test_forecast_mean := fst evaluation;
        rmse := snd evaluation;
        future_steps := future_steps;
        sarima_forecast_next := fst future;
        future_dates := snd future |}.

End DemandForecasting.

Arguments df_daily {Model} _.
Arguments p_value {Model} _.
Arguments stationarity_message {Model} _.
Arguments train {Model} _.
Arguments test {Model} _.
Arguments sarima_result {Model} _.
Arguments test_forecast_mean {Model} _.
Arguments rmse {Model} _.
Arguments future_steps {Model} _.
Arguments sarima_forecast_next {Model} _.
Arguments future_dates {Model} _.

(* ===================================================================== *)
(** * CSV text and frames (lines 12-23, 150-160) *)
(* ===================================================================== *)

(** A cell of a frame, typed as [pd.read_csv] types it: an [int64], a
    [float64] (kept as the text that Python's [repr] gives it, such as
    [6.5] or [100.0]), a string of an [object] column, or a missing
    value. *)
Inductive cell : Type :=
| int_cell (z : Z)
| float_cell (repr : string)
| str_cell (s : string)
| nan_cell.

Record DataFrame : Type := {
  columns : list string;
  records : list (list cell)
}.

Definition usecols : list string :=
  ["Date"; "Route_ID"; "Seats_Booked"; "Fuel_Consumption_Liters";
   "Total_Seats"; "Ticket_Price"]%string.

Definition linefeed : ascii := ascii_of_nat 10.
Definition carriage_return : ascii := ascii_of_nat 13.
Definition quotechar : ascii := ascii_of_nat 34.

Definition newline : string := String linefeed EmptyString.

(** [sep.join(cells)] *)
Fixpoint join (sep : string) (cells : list string) : string :=
  match cells with
  | [] => EmptyString
  | [c] => c
  | c :: rest => (c ++ sep ++ join sep rest)%string
  end.

(** [s.split(sep)] for a one-character separator. *)
Fixpoint split_on (sep : ascii) (s : string) : list string :=
  match s with
  | EmptyString => [EmptyString]
  | String c rest =>
      if Ascii.eqb c sep then EmptyString :: split_on sep rest
      else match split_on sep rest with
           | field :: fields => String c field :: fields
           | [] => [String c EmptyString]
           end
  end.

(** Whether the character occurs in the string. *)
Fixpoint occurs (a : ascii) (s : string) : bool :=
  match s with
  | EmptyString => false
  | String c rest => Ascii.eqb c a || occurs a rest
  end.

(** [str(z)] for an integer. *)
Definition str_int (z : Z) : string := NilZero.string_of_int (Z.to_int z).

(** The text [to_csv] gives a cell: a missing value is the empty text. *)
Definition cell_text (c : cell) : string :=
  match c with
  | int_cell z => str_int z
  | float_cell repr => repr
  | str_cell s => s
  | nan_cell => EmptyString
  end.

(** The csv writer quotes a field that holds a comma, a quote or a line
    break, and doubles the quotes inside it. *)
Definition needs_quotes (s : string) : bool :=
  occurs ","%char s || occurs quotechar s || occurs linefeed s
  || occurs carriage_return s.

Fixpoint double_quotes (s : string) : string :=
  match s with
  | EmptyString => EmptyString
  | String c rest =>
      if Ascii.eqb c quotechar then String c (String c (double_quotes rest))
      else String c (double_quotes rest)
  end.

Definition csv_field (s : string) : string :=
  if needs_quotes s
  then String quotechar (double_quotes s ++ String quotechar EmptyString)
  else s.

(** [csv.writer.writerow]: the fields, quoted where needed, joined by
    commas; a row that consists of one empty field is written as a pair of
    quotes. *)
Definition writerow (fields : list string) : string :=
  match fields with
  | [EmptyString] => String quotechar (String quotechar EmptyString)
  | _ => join "," (map csv_field fields)
  end.

(** One written line of a frame, without its line break. *)
Definition to_csv_line (cells : list cell) : string :=
  writerow (map cell_text cells).

(** [frame.to_csv(header=False, index=False)]: one line per record, cells in
    the frame's own column order, no header line; the line break is the
    one of the platform, here a line feed. *)
Definition to_csv_body (frame : DataFrame) : string :=
  String.concat EmptyString
    (map (fun cells => (to_csv_line cells ++ newline)%string) (records frame)).

(** Python's [set(a) == set(b)] on column names. *)
Definition same_column_set (a b : list string) : bool :=
  bool_decide ((list_to_set a : gset string) = list_to_set b).

Definition mem_string (c : string) (l : list string) : bool :=
  existsb (String.eqb c) l.

Fixpoint select_cells {A : Type} (mask : list bool) (cells : list A) : list A :=
  match mask, cells with
  | b :: mask', c :: cells' =>
      if b then c :: select_cells mask' cells' else select_cells mask' cells'
  | _, _ => []
  end.

Inductive banner : Type :=
| st_success (msg : string)
| st_error (msg : string).

Definition msg_uploaded : string := "Data successfully uploaded and merged!".
Definition msg_mismatch : string :=
  "Column mismatch! Ensure the uploaded file has the same structure as the dataset.".
Definition msg_empty : string := "Dataset is empty. Please upload valid data.".
Definition msg_not_found : string := "Dataset not found. Please upload a valid file.".

(** Outcome of the start of the script: the loaded frame, or [st.stop()]
    after an error banner. *)
Inductive startup : Type :=
| Loaded (df : DataFrame)
| Stopped (shown : banner).

Section UploadData.

(** [pd.read_csv] on the text of a file: the frame with the columns of the
    file's header line, in file order. *)
Variable read_csv : string -> result DataFrame.

(** [pd.read_csv(path, usecols=cols)]: every requested column must be in
    the file; the frame keeps exactly the requested columns, in file
    order.  ([parse_dates] then turns the [Date] column into timestamps;
    that step is part of [typed_rows] below.) *)
Definition read_csv_usecols (text : string) (cols : list string)
  : result DataFrame :=
  let* frame := read_csv text in
  if forallb (fun c => mem_string c (columns frame)) cols then
    let mask := map (fun c => mem_string c cols) (columns frame) in
    Ok {| columns := select_cells mask (columns frame);
          records := map (select_cells mask) (records frame) |}
  else Raise ValueError.

(** Lines 13-23; the argument is the content of [DATA_PATH], [None] when
    the file does not exist. *)
Definition load_dataset (store : option string) : result startup :=
  match store with
  | Some text =>
      let* df := read_csv_usecols text usecols in
      match records df with
      | [] => Ok (Stopped (st_error msg_empty))
      | _ :: _ => Ok (Loaded df)
      end
  | None => Ok (Stopped (st_error msg_not_found))
  end.

(** Lines 151-160: the content of [DATA_PATH] after the page has run, and
    the banner shown. *)
Definition upload_data (df : DataFrame) (store : string)
    (uploaded_file : option string) : result (string * list banner) :=
  match uploaded_file with
  | Some content =>
      let* new_data := read_csv content in
      if same_column_set (columns new_data) (columns df) then
        Ok ((store ++ to_csv_body new_data)%string, [st_success msg_uploaded])
      else Ok (store, [st_error msg_mismatch])
  | None => Ok (store, [])
  end.

End UploadData.


(** A cell that is written as its text, without quotes. *)
Definition plain_cell (c : cell) : bool := negb (needs_quotes (cell_text c)).

(** The texts of the cells of a record, joined by commas. *)
Definition plain_line (cells : list cell) : string :=
  join "," (map cell_text cells).

(** A record of plain cells whose line is not blank. *)
Definition plain_record (cells : list cell) : bool :=
  forallb plain_cell cells && negb (String.eqb (plain_line cells) EmptyString).

(* ===================================================================== *)
(** * Key insights (lines 143-144) *)
(* ===================================================================== *)

(** [series.max()] and [series.min()]: NaN ([None]) for an empty series. *)
Definition Series_max (values : list R) : option R :=
  match values with
  | [] => None
  | v :: rest => Some (fold_left Rmax rest v)
  end.

Definition Series_min (values : list R) : option R :=
  match values with
  | [] => None
  | v :: rest => Some (fold_left Rmin rest v)
  end.

(** [peak_demand] and [low_demand] of a forecast. *)
Definition key_insights (sarima_forecast_next : list R) : option R * option R :=
  (Series_max sarima_forecast_next, Series_min sarima_forecast_next).

(* ===================================================================== *)
(** * Visualization (lines 128-132) *)
(* ===================================================================== *)


Section Visualization.

Variable Model : Type.
(** [results.fittedvalues] *)
Variable fittedvalues : Model -> list R.



End Visualization.

(* ===================================================================== *)
(** * The script as a whole (lines 12-160) *)
(* ===================================================================== *)

(** The choices of the sidebar radio (line 27). *)
Inductive Page : Type :=
| Home
| Dataset
| EDA
| Demand_Forecasting
| Upload_Data.

(** The images of the EDA page (lines 69-75). *)
Definition eda_images : list string :=
  ["gsrtc_dashboard.png"; "avg_fuel_consumption.png";
   "avg_profit_per_trip_by_route.png"; "seats_booked_by_destination.png";
   "seats_booked_per_month.png"; "total_trips_by_delay_status.png";
   "total_trips_by_delay_occupancy.png"]%string.

(** Calls in sequence, stopping at the first exception. *)
Fixpoint for_each {A : Type} (call : A -> result unit) (items : list A)
  : result unit :=
  match items with
  | [] => Ok tt
  | x :: rest => let* _ := call x in for_each call rest
  end.

(** The text of [DATA_PATH]; a file opened for appending that does not
    exist starts empty. *)
Definition file_text (store : option string) : string :=
  match store with
  | Some text => text
  | None => EmptyString
  end.

Section App.

Variable Model : Type.
Variable adfuller : list Z -> result (Q * Q).
Variable SARIMAX_fit : list Z -> Z * Z * Z -> Z * Z * Z * Z -> result Model.
Variable get_forecast : Model -> nat -> list R.
Variable forecast : Model -> nat -> list R.
Variable st_slider : nat -> nat -> nat -> nat.
Variable read_csv : string -> result DataFrame.
(** The typed rows of a loaded frame ([read_csv] infers the number columns
    and parses [Date] day-first). *)
Variable typed_rows : DataFrame -> list RawObservation.
(** [st.image(path)] *)
Variable st_image : string -> result unit.

(** One run of the script: the content of [DATA_PATH] afterwards and the
    [st.error] / [st.success] banners shown.  Text, tables, images and
    charts are not part of the result. *)
Definition run_app (store : option string) (page : Page)
    (uploaded_file : option string) : result (option string * list banner) :=
  let* start := load_dataset read_csv store in
  match start with
  | Stopped shown => Ok (store, [shown])
  | Loaded df =>
      match page with
      | Home => Ok (store, [])
      | Dataset => Ok (store, [])
      | EDA =>
          let* _ := for_each st_image eda_images in
          Ok (store, [])
      | Demand_Forecasting =>
          let* _ := demand_forecasting Model adfuller SARIMAX_fit get_forecast
                      forecast st_slider (typed_rows df) in
          Ok (store, [])
      | Upload_Data =>
          let* after := upload_data read_csv df (file_text store)
                          uploaded_file in
          Ok (Some (fst after), snd after)
      end
  end.

End App.

(* ===================================================================== *)
(** * Concrete inputs used in examples *)
(* ===================================================================== *)

(** Four consecutive days, 2023-01-01 .. 2023-01-04. *)
Definition four_days : list (Z * Z) :=
  [(Timestamp 2023 1 1, 10); (Timestamp 2023 1 2, 12);
   (Timestamp 2023 1 3, 9); (Timestamp 2023 1 4, 15)].

Definition four_days_frame : DailyFrame :=
  {| daily_rows := four_days; Seats_Booked_Diff := None |}.

Definition one_day_frame : DailyFrame :=
  {| daily_rows := [(Timestamp 2023 1 1, 10)]; Seats_Booked_Diff := None |}.

Definition empty_frame : DailyFrame :=
  {| daily_rows := []; Seats_Booked_Diff := None |}.

Definition observation (date seats : Z) : RawObservation :=
  {| Date := Some date; Route_ID := "R1"; Seats_Booked := seats;
     Fuel_Consumption_Liters := 0%Q; Total_Seats := 40; Ticket_Price := 0%Q |}.

(** A row whose [Date] cell is empty in the file. *)
Definition undated (seats : Z) : RawObservation :=
  {| Date := None; Route_ID := "R1"; Seats_Booked := seats;
     Fuel_Consumption_Liters := 0%Q; Total_Seats := 40; Ticket_Price := 0%Q |}.

(** The same four days as raw rows, the first day split over two trips. *)
Definition five_trips : list RawObservation :=
  [observation (Timestamp 2023 1 1) 4; observation (Timestamp 2023 1 2) 12;
   observation (Timestamp 2023 1 1) 6; observation (Timestamp 2023 1 3) 9;
   observation (Timestamp 2023 1 4) 15].

(** A stand-in for statsmodels: a series of fewer than two values is too
    short for the test and raises [ValueError], every other series has
    p-value 1/2; a fitted model is its training data, every forecast is
    flat at zero, and the slider rests at its initial value. *)
Module Stub.
Definition Model : Type := list Z.
Definition adfuller (series : list Z) : result (Q * Q) :=
  if (length series <? 2)%nat then Raise ValueError else Ok (0%Q, (1 # 2)%Q).
Definition SARIMAX_fit (endog : list Z) (order : Z * Z * Z)
    (seasonal_order : Z * Z * Z * Z) : result Model := Ok endog.
Definition get_forecast (m : Model) (steps : nat) : list R := repeat 0%R steps.
Definition forecast (m : Model) (steps : nat) : list R := repeat 0%R steps.
Definition st_slider (min_value max_value value : nat) : nat := value.
End Stub.

(** What the page computes for [five_trips] with the stand-in library. *)
Definition stub_page : ForecastPage Stub.Model :=
  {| df_daily :=
       {| daily_rows := four_days;
          Seats_Booked_Diff := Some [None; Some 2; Some (-3); Some 6] |};
     p_value := (1 # 2)%Q;
     stationarity_message := msg_not_stationary;
     train :=
       {| daily_rows := firstn 3 four_days;
          Seats_Booked_Diff := Some [None; Some 2; Some (-3)] |};
     test :=
       {| daily_rows := skipn 3 four_days;
          Seats_Booked_Diff := Some [Some 6] |};
     sarima_result := [10; 12; 9];
     test_forecast_mean := [0%R];
     rmse := sqrt (Rsum (squared_errors [15%R] [0%R]) / INR 1);
     future_steps := 30;
     sarima_forecast_next := repeat 0%R 30;
     future_dates := date_range (Timestamp 2023 1 5) 30 |}.

Definition store_header : string :=
  "Date,Route_ID,Seats_Booked,Fuel_Consumption_Liters,Total_Seats,Ticket_Price".

Definition small_store : string :=
  (store_header ++ newline ++ "01-01-2023,R1,10,5.5,40,100" ++ newline)%string.

(** An upload with the first two columns exchanged, a seat count written
    with a leading zero and a fuel figure with a trailing zero. *)
Definition swapped_upload : string :=
  ("Route_ID,Date,Seats_Booked,Fuel_Consumption_Liters,Total_Seats,Ticket_Price"
   ++ newline ++ "R7,02-01-2023,011,6.50,40,120" ++ newline)%string.

(** An upload without the column [Ticket_Price]. *)
Definition short_upload : string :=
  ("Date,Route_ID,Seats_Booked,Fuel_Consumption_Liters,Total_Seats"
   ++ newline ++ "02-01-2023,R7,11,6.5,40" ++ newline)%string.

(** A store with a seventh column, and an upload with the same seven. *)
Definition wide_header : string :=
  (store_header ++ ",Delay_Minutes")%string.

Definition wide_store : string :=
  (wide_header ++ newline ++ "01-01-2023,R1,10,5.5,40,100,15" ++ newline)%string.

Definition wide_upload : string :=
  (wide_header ++ newline ++ "02-01-2023,R7,11,6.5,40,120,0" ++ newline)%string.

(** An upload with the six columns in the store's order. *)
Definition six_upload : string :=
  (store_header ++ newline ++ "02-01-2023,R7,11,6.5,40,120" ++ newline)%string.

(** The example files as [pd.read_csv] types them: [Date] and [Route_ID]
    are strings, the counts [int64], fuel and price [int64] or
    [float64]. *)
Definition small_df : DataFrame :=
  {| columns := usecols;
     records := [[str_cell "01-01-2023"; str_cell "R1"; int_cell 10;
                  float_cell "5.5"; int_cell 40; int_cell 100]] |}.

Definition short_frame : DataFrame :=
  {| columns := ["Date"; "Route_ID"; "Seats_Booked"; "Fuel_Consumption_Liters";
                 "Total_Seats"]%string;
     records := [[str_cell "02-01-2023"; str_cell "R7"; int_cell 11;
                  float_cell "6.5"; int_cell 40]] |}.

Definition swapped_frame : DataFrame :=
  {| columns := ["Route_ID"; "Date"; "Seats_Booked"; "Fuel_Consumption_Liters";
                 "Total_Seats"; "Ticket_Price"]%string;
     records := [[str_cell "R7"; str_cell "02-01-2023"; int_cell 11;
                  float_cell "6.5"; int_cell 40; int_cell 120]] |}.

Definition six_frame : DataFrame :=
  {| columns := usecols;
     records := [[str_cell "02-01-2023"; str_cell "R7"; int_cell 11;
                  float_cell "6.5"; int_cell 40; int_cell 120]] |}.

Definition wide_columns : list string := usecols ++ ["Delay_Minutes"%string].

Definition wide_frame : DataFrame :=
  {| columns := wide_columns;
     records := [[str_cell "01-01-2023"; str_cell "R1"; int_cell 10;
                  float_cell "5.5"; int_cell 40; int_cell 100; int_cell 15]] |}.

Definition wide_upload_frame : DataFrame :=
  {| columns := wide_columns;
     records := [[str_cell "02-01-2023"; str_cell "R7"; int_cell 11;
                  float_cell "6.5"; int_cell 40; int_cell 120; int_cell 0]] |}.

(** [five_trips] with another total on the last day. *)
Definition five_trips_other_end : list RawObservation :=
  [observation (Timestamp 2023 1 1) 4; observation (Timestamp 2023 1 2) 12;
   observation (Timestamp 2023 1 1) 6; observation (Timestamp 2023 1 3) 9;
   observation (Timestamp 2023 1 4) 99].

(** Two trips on one day. *)
Definition one_day_trips : list RawObservation :=
  [observation (Timestamp 2023 1 1) 4; observation (Timestamp 2023 1 1) 6].

(** A store with the header line only. *)
Definition header_only_store : string := (store_header ++ newline)%string.

(** [small_store] without its final line break. *)
Definition unterminated_store : string :=
  (store_header ++ newline ++ "01-01-2023,R1,10,5.5,40,100")%string.

(** Stand-ins for the remaining library entry points of the script;
    [read_csv] is tabulated on the example files. *)
Module StubApp.
Definition read_csv (text : string) : result DataFrame :=
  if String.eqb text small_store then Ok small_df
  else if String.eqb text swapped_upload then Ok swapped_frame
  else if String.eqb text short_upload then Ok short_frame
  else if String.eqb text six_upload then Ok six_frame
  else if String.eqb text wide_store then Ok wide_frame
  else if String.eqb text wide_upload then Ok wide_upload_frame
  else if String.eqb text header_only_store
  then Ok {| columns := usecols; records := [] |}
  else Raise ValueError.
Definition typed_rows (df : DataFrame) : list RawObservation := five_trips.
Definition st_image (path : string) : result unit := Ok tt.
End StubApp.

(* ===================================================================== *)
(** * Facts about binary64 rounding *)
(* ===================================================================== *)

Lemma of_int_exact (n : Z) :
  0 <= n < 2 ^ 53 -> Float64.of_int n = Float64.mk n 0.
Proof.
  intros Hn. unfold Float64.of_int, Float64.round, Float64.prec.
  assert (Hs : Z.log2 n + 1 - 53 <= 0).
  { destruct (Z.eq_dec n 0) as [-> | Hnz]; [cbn; lia |].
    assert (Z.log2 n < 53) by (apply Z.log2_lt_pow2; lia). lia. }
  apply Z.leb_le in Hs. rewrite Hs. reflexivity.
Qed.

(** A rounded significand is the truncated one or its successor, and is
    within half a unit of the exact quotient. *)
Lemma round_cases (m e : Z) :
  0 < m ->
  (Z.log2 m + 1 - 53 <= 0 /\ Float64.round m e = Float64.mk m e) \/
  (exists s q, 0 < s /\ 2 ^ s * 2 ^ 52 <= m /\
     Float64.round m e = Float64.mk q (e + s) /\
     m / 2 ^ s <= q /\ 2 * q * 2 ^ s <= 2 * m + 2 ^ s).
Proof.
  intros Hm. unfold Float64.round, Float64.prec.
  destruct (Z.leb_spec (Z.log2 m + 1 - 53) 0) as [Hs | Hs]; [left; auto |].
  right. remember (Z.log2 m + 1 - 53) as s eqn:Es.
  assert (Hp : 0 < 2 ^ s) by (apply Z.pow_pos_nonneg; lia).
  assert (Hhalf : 2 * 2 ^ (s - 1) = 2 ^ s).
  { rewrite <- Z.pow_succ_r by lia. f_equal. lia. }
  pose proof (Z.div_mod m (2 ^ s) ltac:(lia)) as Hdm.
  pose proof (Z.mod_pos_bound m (2 ^ s) Hp) as Hr.
  exists s. eexists. split; [lia |]. split.
  { pose proof (Z.log2_spec m Hm) as [Hlo _].
    replace (Z.log2 m) with (s + 52) in Hlo by lia.
    rewrite Z.pow_add_r in Hlo by lia. exact Hlo. }
  split; [reflexivity |]. cbv zeta.
  match goal with |- context [if ?b then _ else _] => destruct b eqn:Hup end.
  - split; [lia |].
    assert (2 ^ (s - 1) <= m mod 2 ^ s).
    { apply Bool.orb_true_iff in Hup as [Hup | Hup].
      - apply Z.ltb_lt in Hup. lia.
      - apply Bool.andb_true_iff in Hup as [Hup _]. apply Z.eqb_eq in Hup. lia. }
    nia.
  - split; [lia |]. nia.
Qed.

(** [int(n * 0.8)] is the floor of [4n/5] for every length below 2^50: the
    double nearest to 0.8 exceeds 4/5 by 2^-52/5, too little to carry the
    product across an integer. *)
Lemma int_mul_0_8 (n : Z) :
  0 <= n < 2 ^ 50 ->
  Float64.to_int (Float64.mul (Float64.of_int n) Float64.lit_0_8) = 4 * n / 5.
Proof.
  intros Hn.
  rewrite of_int_exact by lia.
  unfold Float64.mul, Float64.lit_0_8. cbn [Float64.mant Float64.expo].
  destruct (Z.eq_dec n 0) as [-> | Hnz]; [reflexivity |].
  set (M := 7205759403792794).
  pose proof (Z.div_mod (4 * n) 5 ltac:(lia)) as Hdm.
  pose proof (Z.mod_pos_bound (4 * n) 5 ltac:(lia)) as Hr.
  set (a := 4 * n / 5) in *.
  assert (H53 : 2 ^ 53 = 9007199254740992) by reflexivity.
  assert (H52 : 2 ^ 52 = 4503599627370496) by reflexivity.
  assert (H50 : 2 ^ 50 = 1125899906842624) by reflexivity.
  assert (HM : 5 * M = 4 * 2 ^ 53 + 2) by reflexivity.
  destruct (round_cases (n * M) (0 + -53) ltac:(subst M; lia))
    as [[_ ->] | (s & q & Hs & Hlo & -> & Hq1 & Hq2)].
  - unfold Float64.to_int. cbn [Float64.mant Float64.expo].
    change (0 <=? 0 + -53) with false. cbv iota.
    change (- (0 + -53)) with 53.
    symmetry. apply Z.div_unique with (r := n * M - a * 2 ^ 53); subst M; lia.
  - assert (Hps : 0 < 2 ^ s) by (apply Z.pow_pos_nonneg; lia).
    assert (Hs50 : s <= 50).
    { destruct (Z.le_gt_cases s 50) as [|Hgt]; [assumption | exfalso].
      assert (2 ^ 51 <= 2 ^ s) by (apply Z.pow_le_mono_r; lia).
      assert (2 ^ 51 = 2251799813685248) by reflexivity.
      subst M. nia. }
    unfold Float64.to_int. cbn [Float64.mant Float64.expo].
    destruct (Z.leb_spec 0 (0 + -53 + s)) as [Hge | Hlt]; [lia |].
    replace (- (0 + -53 + s)) with (53 - s) by lia.
    assert (Hpt : 0 < 2 ^ (53 - s)) by (apply Z.pow_pos_nonneg; lia).
    assert (Hst : 2 ^ s * 2 ^ (53 - s) = 2 ^ 53).
    { rewrite <- Z.pow_add_r by lia. f_equal. lia. }
    pose proof (Z.div_mod (n * M) (2 ^ s) ltac:(lia)) as Hdq.
    pose proof (Z.mod_pos_bound (n * M) (2 ^ s) Hps) as Hrq.
    symmetry. apply Z.div_unique with (r := q - a * 2 ^ (53 - s)).
    + left. split.
      * assert (a * 2 ^ (53 - s) <= n * M / 2 ^ s); [| lia].
        apply Z.div_le_lower_bound; [lia |].
        subst M. nia.
      * subst M. nia.
    + lia.
Qed.

(** The bound is not an artefact of the proof: once the product reaches
    2^51 the spacing of doubles is 1/2, and a product ending in .8 rounds up
    to the next integer. *)
Remark int_mul_0_8_past_2_51 :
  Float64.to_int
    (Float64.mul (Float64.of_int 2814749767106561) Float64.lit_0_8) =
  4 * 2814749767106561 / 5 + 1.
Proof. vm_compute. reflexivity. Qed.

Lemma train_size_floor (n : nat) :
  Z.of_nat n < 2 ^ 50 -> train_size n = (4 * n / 5)%nat.
Proof.
  intros Hn. unfold train_size.
  rewrite int_mul_0_8 by lia.
  apply Nat2Z.inj. rewrite Z2Nat.id by (apply Z.div_pos; lia).
  rewrite Nat2Z.inj_div. f_equal. lia.
Qed.

Lemma train_size_bounds (n : nat) :
  Z.of_nat n < 2 ^ 50 ->
  (train_size n <= n)%nat /\
  ((2 <= n)%nat -> (1 <= train_size n)%nat /\ (train_size n < n)%nat) /\
  ((n < 2)%nat -> train_size n = 0%nat).
Proof.
  intros Hn. rewrite (train_size_floor n Hn).
  pose proof (Nat.div_mod (4 * n) 5 ltac:(lia)) as Hdm.
  pose proof (Nat.mod_upper_bound (4 * n) 5 ltac:(lia)) as Hr.
  lia.
Qed.

(** The product [len * 0.8] is the same number in [Float64] and in
    [Binary64]. *)
Example train_size_product_in_both_models :
  forallb
    (fun n =>
       let x := Float64.mul (Float64.of_int n) Float64.lit_0_8 in
       Binary64.eqb
         (Binary64.mul (Binary64.of_int n)
            (Binary64.finite (Float64.mant Float64.lit_0_8)
                             (Float64.expo Float64.lit_0_8)))
         (Binary64.finite (Float64.mant x) (Float64.expo x)))
    [0; 1; 2; 3; 4; 5; 7; 10; 99; 1000; 123456789; 2 ^ 40 + 1;
     2 ^ 50 - 1; 2814749767106561] = true.
Proof. vm_compute. reflexivity. Qed.

(* ===================================================================== *)
(** * The train-test split *)
(* ===================================================================== *)

Lemma concat_slices (k : nat) (df : DailyFrame) :
  concat_frames (slice_to k df) (slice_from k df) = df.
Proof.
  destruct df as [rows [c |]]; unfold concat_frames, slice_to, slice_from;
    cbn [daily_rows Seats_Booked_Diff option_map];
    rewrite ?firstn_skipn; reflexivity.
Qed.

Lemma len_slice_to (k : nat) (df : DailyFrame) :
  (k <= len df)%nat -> len (slice_to k df) = k.
Proof.
  intros Hk. unfold len, slice_to in *. cbn [daily_rows].
  rewrite length_firstn. lia.
Qed.

Lemma len_slice_from (k : nat) (df : DailyFrame) :
  len (slice_from k df) = (len df - k)%nat.
Proof. unfold len, slice_from. cbn [daily_rows]. apply length_skipn. Qed.

(** C2. For a working series of length n >= 2 (and below 2^50, beyond any
    frame that fits in memory) the split gives a train part of
    floor(0.8 n) rows and a test part of the other n - floor(0.8 n) rows;
    train is the prefix and test the suffix at the same cut, so they are
    contiguous and disjoint, and train followed by test is the series
    again.  The four-day series splits into its first three days and its
    last day. *)
Theorem split_is_an_ordered_partition (ws : DailyFrame) :
  (2 <= len ws)%nat ->
  Z.of_nat (len ws) < 2 ^ 50 ->
  let train := fst (train_test_split ws) in
  let test := snd (train_test_split ws) in
  len train = (4 * len ws / 5)%nat /\
  len test = (len ws - 4 * len ws / 5)%nat /\
  train = slice_to (len train) ws /\
  test = slice_from (len train) ws /\
  daily_rows train ++ daily_rows test = daily_rows ws /\
  concat_frames train test = ws /\
  train_test_split four_days_frame =
    ({| daily_rows := firstn 3 four_days; Seats_Booked_Diff := None |},
     {| daily_rows := skipn 3 four_days; Seats_Booked_Diff := None |}).
Proof.
  intros H2 Hn. cbv zeta. unfold train_test_split. cbn [fst snd].
  destruct (train_size_bounds (len ws) Hn) as (Hle & _ & _).
  rewrite len_slice_to by exact Hle.
  rewrite len_slice_from.
  rewrite (train_size_floor (len ws) Hn) in *.
  repeat split.
  - cbn [slice_to slice_from daily_rows]. apply firstn_skipn.
  - apply concat_slices.
Qed.

Lemma split_is_an_ordered_partition_witness :
  let train := fst (train_test_split four_days_frame) in
  let test := snd (train_test_split four_days_frame) in
  len train = 3%nat /\ len test = 1%nat /\
  daily_rows train ++ daily_rows test = four_days.
Proof.
  assert (H2 : (2 <= len four_days_frame)%nat) by (vm_compute; lia).
  assert (Hn : Z.of_nat (len four_days_frame) < 2 ^ 50) by (vm_compute; reflexivity).
  destruct (split_is_an_ordered_partition four_days_frame H2 Hn)
    as (Ha & Hb & _ & _ & Hc & _).
  cbv zeta. split; [exact Ha | split; [exact Hb | exact Hc]].
Defined.

(* ===================================================================== *)
(** * Aggregation by date *)
(* ===================================================================== *)

Section Aggregation.

Implicit Types (rows groups : list (Z * Z)) (d s : Z).

Lemma wrap64_int64 z : int64 (wrap64 z).
Proof.
  unfold int64, wrap64.
  pose proof (Z.mod_pos_bound (z + 2 ^ 63) (2 ^ 64) ltac:(lia)). lia.
Qed.

Lemma wrap64_id z : int64 z -> wrap64 z = z.
Proof.
  unfold int64, wrap64. intros H.
  rewrite Z.mod_small by lia. lia.
Qed.

Lemma wrap64_add_l a b : wrap64 (wrap64 a + b) = wrap64 (a + b).
Proof.
  unfold wrap64. f_equal.
  replace ((a + 2 ^ 63) mod 2 ^ 64 - 2 ^ 63 + b + 2 ^ 63)
    with ((a + 2 ^ 63) mod 2 ^ 64 + b) by lia.
  rewrite Zplus_mod_idemp_l. f_equal. lia.
Qed.

Lemma wrap64_add_r a b : wrap64 (a + wrap64 b) = wrap64 (a + b).
Proof. rewrite Z.add_comm, wrap64_add_l. f_equal. lia. Qed.

Lemma seats_on_cons d d' s rows :
  seats_on d ((d', s) :: rows) = (if d' =? d then s else 0) + seats_on d rows.
Proof.
  unfold seats_on. cbn [List.filter fst]. destruct (d' =? d); reflexivity.
Qed.

Lemma seats_on_app d rows1 rows2 :
  seats_on d (rows1 ++ rows2) = seats_on d rows1 + seats_on d rows2.
Proof.
  induction rows1 as [| [d' s] rows1 IH]; [reflexivity |].
  rewrite <- app_comm_cons, !seats_on_cons, IH. lia.
Qed.

Lemma seats_on_absent d rows :
  ~ In d (map fst rows) -> seats_on d rows = 0.
Proof.
  induction rows as [| [d' s] rows IH]; intros Hd; [reflexivity |].
  rewrite seats_on_cons. cbn in Hd.
  destruct (Z.eqb_spec d' d) as [-> | _]; [tauto |].
  rewrite IH by tauto. reflexivity.
Qed.

Lemma increasing_dates_value d v rows :
  increasing_dates rows -> In (d, v) rows -> seats_on d rows = v.
Proof.
  unfold increasing_dates.
  induction rows as [| [d0 s0] rows IH]; intros Hs Hin; [destruct Hin |].
  cbn [map fst] in Hs. apply StronglySorted_inv in Hs as [Hs Hall].
  rewrite seats_on_cons. destruct Hin as [Heq | Hin].
  - injection Heq as -> ->. rewrite Z.eqb_refl.
    rewrite seats_on_absent; [lia |].
    intros Hd. rewrite List.Forall_forall in Hall. specialize (Hall d Hd). lia.
  - assert (d0 < d).
    { rewrite List.Forall_forall in Hall. apply Hall.
      change d with (fst (d, v)). apply in_map, Hin. }
    destruct (Z.eqb_spec d0 d); [lia |]. rewrite IH by assumption. lia.
Qed.

Lemma increasing_dates_NoDup rows :
  increasing_dates rows -> List.NoDup (map fst rows).
Proof.
  unfold increasing_dates.
  induction (map fst rows) as [| x xs IH]; intros Hs; [constructor |].
  apply StronglySorted_inv in Hs as [Hs Hall]. constructor; [| apply IH, Hs].
  intros Hx. rewrite List.Forall_forall in Hall. specialize (Hall x Hx). lia.
Qed.

Lemma increasing_dates_tail r rows :
  increasing_dates (r :: rows) ->
  increasing_dates rows /\ ~ In (fst r) (map fst rows).
Proof.
  unfold increasing_dates. cbn [map]. intros Hs.
  apply StronglySorted_inv in Hs as [Hs Hall]. split; [exact Hs |].
  intros Hin. rewrite List.Forall_forall in Hall. specialize (Hall _ Hin). lia.
Qed.

(** The total of a date in a frame that has each date once is one of the
    frame's cells, or nothing. *)
Lemma seats_on_int64 d groups :
  increasing_dates groups -> Forall int64 (map snd groups) ->
  int64 (seats_on d groups).
Proof.
  intros Hs Hall.
  destruct (in_dec Z.eq_dec d (map fst groups)) as [Hin | Hout].
  - apply in_map_iff in Hin as ([d0 v] & Heq & Hin). cbn in Heq. subst d0.
    rewrite (increasing_dates_value d v groups Hs Hin).
    rewrite List.Forall_forall in Hall. apply Hall.
    change v with (snd (d, v)). apply in_map, Hin.
  - rewrite seats_on_absent by exact Hout. unfold int64. lia.
Qed.

Lemma group_add_dates d s d' groups :
  In d' (map fst (group_add d s groups)) <-> d' = d \/ In d' (map fst groups).
Proof.
  induction groups as [| [d0 s0] groups IH]; cbn [group_add].
  - cbn. intuition congruence.
  - destruct (Z.ltb_spec d d0) as [Hlt | Hge].
    + cbn. intuition congruence.
    + destruct (Z.eqb_spec d d0) as [-> | Hne].
      * cbn. intuition congruence.
      * cbn [map fst In]. rewrite IH. cbn. intuition congruence.
Qed.

Lemma group_add_increasing d s groups :
  increasing_dates groups -> increasing_dates (group_add d s groups).
Proof.
  unfold increasing_dates.
  induction groups as [| [d0 s0] groups IH]; intros Hs; cbn [group_add].
  - cbn. repeat constructor.
  - cbn [map fst] in Hs. apply StronglySorted_inv in Hs as [Hs Hall].
    destruct (Z.ltb_spec d d0) as [Hlt | Hge].
    + cbn [map fst]. constructor.
      * constructor; assumption.
      * constructor; [assumption |].
        eapply List.Forall_impl; [| exact Hall]. cbn. intros; lia.
    + destruct (Z.eqb_spec d d0) as [-> | Hne].
      * cbn [map fst]. constructor; assumption.
      * cbn [map fst]. constructor; [apply IH; assumption |].
        rewrite List.Forall_forall. intros x Hx.
        apply group_add_dates in Hx as [-> | Hx]; [lia |].
        rewrite List.Forall_forall in Hall. apply Hall, Hx.
Qed.

Lemma group_add_int64 d s groups :
  Forall int64 (map snd groups) -> Forall int64 (map snd (group_add d s groups)).
Proof.
  induction groups as [| [d0 s0] groups IH]; intros Hall; cbn [group_add].
  - cbn. constructor; [apply wrap64_int64 | constructor].
  - cbn [map snd] in Hall. apply List.Forall_cons_iff in Hall as [H0 Hall].
    destruct (d <? d0).
    + cbn [map snd]. constructor; [apply wrap64_int64 |].
      constructor; assumption.
    + destruct (d =? d0); cbn [map snd].
      * constructor; [apply wrap64_int64 | assumption].
      * constructor; [assumption | apply IH, Hall].
Qed.

(** Adding a row changes the total of its own date only, by an [int64]
    addition. *)
Lemma group_add_seats d s d' groups :
  increasing_dates groups ->
  seats_on d' (group_add d s groups) =
  if d =? d' then wrap64 (seats_on d' groups + s) else seats_on d' groups.
Proof.
  induction groups as [| [d0 s0] groups IH]; intros Hs; cbn [group_add].
  - rewrite seats_on_cons. change (seats_on d' []) with 0.
    destruct (d =? d'); [f_equal |]; lia.
  - destruct (increasing_dates_tail _ _ Hs) as [Hs' Hout]. cbn [fst] in Hout.
    assert (Hlow : forall x, x < d0 -> ~ In x (map fst ((d0, s0) :: groups))).
    { intros x Hx [Heq | Hin]; [cbn in Heq; lia |].
      unfold increasing_dates in Hs. cbn [map fst] in Hs.
      apply StronglySorted_inv in Hs as [_ Hall].
      rewrite List.Forall_forall in Hall. specialize (Hall x Hin). lia. }
    destruct (Z.ltb_spec d d0) as [Hlt | Hge].
    + rewrite seats_on_cons.
      destruct (Z.eqb_spec d d') as [<- | Hne].
      * rewrite (seats_on_absent d ((d0, s0) :: groups)) by (apply Hlow; lia).
        rewrite Z.add_0_r. f_equal.
      * lia.
    + destruct (Z.eqb_spec d d0) as [-> | Hne].
      * rewrite !seats_on_cons.
        destruct (Z.eqb_spec d0 d') as [<- | Hne'].
        -- rewrite (seats_on_absent d0 groups) by exact Hout.
           rewrite !Z.add_0_r. reflexivity.
        -- reflexivity.
      * rewrite !seats_on_cons, (IH Hs').
        destruct (Z.eqb_spec d d') as [<- | Hne'].
        -- destruct (Z.eqb_spec d0 d); [congruence |]. rewrite !Z.add_0_l. reflexivity.
        -- reflexivity.
Qed.

Lemma group_add_last d s groups :
  Forall (fun d' => d' < d) (map fst groups) -> int64 s ->
  group_add d s groups = groups ++ [(d, s)].
Proof.
  intros Hall Hs.
  induction groups as [| [d0 s0] groups IH].
  - cbn [group_add]. rewrite Z.add_0_l, wrap64_id by exact Hs. reflexivity.
  - cbn [map fst] in Hall. apply List.Forall_cons_iff in Hall as [Hd0 Hall].
    cbn [group_add].
    destruct (Z.ltb_spec d d0) as [Hlt | Hge]; [lia |].
    destruct (Z.eqb_spec d d0) as [-> | Hne]; [lia |].
    rewrite IH by assumption. reflexivity.
Qed.

Lemma groupby_fold_increasing rows groups :
  increasing_dates groups -> increasing_dates (fold_left add_row rows groups).
Proof.
  revert groups. induction rows as [| r rows IH]; intros groups Hs; [exact Hs |].
  cbn [fold_left]. apply IH. apply group_add_increasing, Hs.
Qed.

Lemma groupby_fold_int64 rows groups :
  Forall int64 (map snd groups) ->
  Forall int64 (map snd (fold_left add_row rows groups)).
Proof.
  revert groups. induction rows as [| r rows IH]; intros groups Hs; [exact Hs |].
  cbn [fold_left]. apply IH. apply group_add_int64, Hs.
Qed.

Lemma groupby_fold_seats d rows groups :
  increasing_dates groups -> Forall int64 (map snd groups) ->
  seats_on d (fold_left add_row rows groups) =
  wrap64 (seats_on d groups + seats_on d rows).
Proof.
  revert groups. induction rows as [| [d0 s0] rows IH]; intros groups Hs Hall.
  - cbn [fold_left]. change (seats_on d []) with 0. rewrite Z.add_0_r.
    symmetry. apply wrap64_id, seats_on_int64; assumption.
  - cbn [fold_left]. unfold add_row at 2. cbn [fst snd].
    rewrite IH by (apply group_add_increasing || apply group_add_int64; assumption).
    rewrite (group_add_seats _ _ _ _ Hs), seats_on_cons.
    destruct (d0 =? d).
    + rewrite wrap64_add_l. f_equal. lia.
    + f_equal.
Qed.

Lemma groupby_fold_dates d rows groups :
  In d (map fst (fold_left add_row rows groups)) <->
  In d (map fst groups) \/ In d (map fst rows).
Proof.
  revert groups. induction rows as [| [d0 s0] rows IH]; intros groups.
  - cbn. tauto.
  - cbn [fold_left]. rewrite IH. unfold add_row. cbn [fst snd].
    rewrite group_add_dates. cbn. intuition congruence.
Qed.

Lemma groupby_fold_sorted_input rows groups :
  increasing_dates (groups ++ rows) -> Forall int64 (map snd rows) ->
  fold_left add_row rows groups = groups ++ rows.
Proof.
  revert groups. induction rows as [| [d s] rows IH]; intros groups Hs Hall.
  - cbn. rewrite app_nil_r. reflexivity.
  - cbn [fold_left]. unfold add_row at 2. cbn [fst snd].
    cbn [map snd] in Hall. apply List.Forall_cons_iff in Hall as [Hs0 Hall].
    assert (Hlast : Forall (fun d' => d' < d) (map fst groups)).
    { unfold increasing_dates in Hs. rewrite map_app in Hs. cbn [map fst] in Hs.
      clear IH. induction (map fst groups) as [| x xs IHx]; [constructor |].
      cbn in Hs. apply StronglySorted_inv in Hs as [Hs Hall'].
      constructor; [| apply IHx, Hs].
      rewrite List.Forall_forall in Hall'. apply Hall'.
      apply in_or_app. right. left. reflexivity. }
    rewrite group_add_last by assumption.
    rewrite IH; [| rewrite <- app_assoc; exact Hs | exact Hall].
    rewrite <- app_assoc. reflexivity.
Qed.

Lemma sort_values_sorted_input rows :
  increasing_dates rows -> sort_values rows = rows.
Proof.
  unfold increasing_dates, sort_values.
  induction rows as [| r rows IH]; intros Hs; [reflexivity |].
  cbn [map] in Hs. apply StronglySorted_inv in Hs as [Hs Hall].
  cbn [fold_right]. rewrite IH by exact Hs.
  destruct rows as [| r' rows]; [reflexivity |].
  cbn [insert_by_date]. cbn [map] in Hall.
  apply List.Forall_cons_iff in Hall as [Hlt _].
  destruct (Z.leb_spec (fst r) (fst r')); [reflexivity | lia].
Qed.

Lemma dropna_keys_keyed rows : dropna_keys (keyed rows) = rows.
Proof.
  unfold keyed.
  induction rows as [| [d s] rows IH]; [reflexivity |].
  cbn [map dropna_keys fst snd]. rewrite IH. reflexivity.
Qed.

Lemma dropna_keys_dates d (keys : list (option Z * Z)) :
  In d (map fst (dropna_keys keys)) <-> In (Some d) (map fst keys).
Proof.
  induction keys as [| [[d0 |] s0] keys IH]; cbn [dropna_keys map fst In].
  - tauto.
  - rewrite IH. intuition congruence.
  - rewrite IH. intuition congruence.
Qed.

Lemma dropna_keys_Permutation (keys keys' : list (option Z * Z)) :
  Permutation keys keys' -> Permutation (dropna_keys keys) (dropna_keys keys').
Proof.
  induction 1 as [| [[d |] s] l l' _ IH | [[d |] s] [[d' |] s'] l
                 | l l' l'' _ IH1 _ IH2]; cbn [dropna_keys];
    try solve [constructor; assumption | assumption | apply Permutation_refl].
  eapply perm_trans; eassumption.
Qed.

Lemma groupby_sum_increasing keys : increasing_dates (groupby_sum keys).
Proof. apply (groupby_fold_increasing _ []). constructor. Qed.

Lemma groupby_sum_int64 keys : Forall int64 (map snd (groupby_sum keys)).
Proof. apply (groupby_fold_int64 _ []). constructor. Qed.

Lemma groupby_sum_seats d keys :
  seats_on d (groupby_sum keys) = wrap64 (seats_on d (dropna_keys keys)).
Proof.
  unfold groupby_sum. rewrite groupby_fold_seats by constructor.
  change (seats_on d []) with 0. rewrite Z.add_0_l. reflexivity.
Qed.

Lemma groupby_sum_dates d keys :
  In d (map fst (groupby_sum keys)) <-> In (Some d) (map fst keys).
Proof.
  unfold groupby_sum. rewrite groupby_fold_dates, dropna_keys_dates.
  cbn. tauto.
Qed.

Lemma daily_totals_groupby keys : daily_totals keys = groupby_sum keys.
Proof. apply sort_values_sorted_input, groupby_sum_increasing. Qed.

Lemma seats_on_dataset d (df : list RawObservation) :
  seats_on d (dropna_keys (map date_and_seats df)) =
  fold_right Z.add 0 (map Seats_Booked (List.filter (on_date d) df)).
Proof.
  induction df as [| r df IH]; [reflexivity |].
  cbn [map List.filter]. unfold date_and_seats at 1, on_date at 1.
  destruct (Date r) as [d0 |]; cbn [dropna_keys]; [| exact IH].
  rewrite seats_on_cons, IH.
  destruct (d0 =? d); cbn [map fold_right]; reflexivity.
Qed.

End Aggregation.

(** C8. The aggregated frame has strictly increasing dates, hence no date
    twice; its dates are the dates of the input rows that have one (rows
    with a missing date are left out); the value at a date is the sum of
    [Seats_Booked] over the input rows with that date, wrapped to 64 bits,
    which is the sum itself when it fits; and aggregating the aggregated
    frame again changes nothing. *)
Theorem aggregation_sorted_summed_idempotent (df : list RawObservation) :
  let out := daily_rows (Aggregator df) in
  StronglySorted Z.lt (map fst out) /\
  List.NoDup (map fst out) /\
  (forall d, In d (map fst out) <-> In (Some d) (map Date df)) /\
  (forall d v, In (d, v) out ->
     let total :=
       fold_right Z.add 0 (map Seats_Booked (List.filter (on_date d) df)) in
     v = wrap64 total /\ (int64 total -> v = total)) /\
  daily_totals (keyed out) = out.
Proof.
  cbv zeta. unfold Aggregator. cbn [daily_rows].
  set (keys := map date_and_seats df).
  rewrite (daily_totals_groupby keys).
  pose proof (groupby_sum_increasing keys) as Hs.
  split; [exact Hs |].
  split; [apply increasing_dates_NoDup, Hs |].
  split; [| split].
  - intros d. rewrite groupby_sum_dates. subst keys. rewrite map_map.
    cbn. tauto.
  - intros d v Hin.
    rewrite <- (increasing_dates_value d v _ Hs Hin).
    rewrite groupby_sum_seats. subst keys. rewrite seats_on_dataset.
    split; [reflexivity |]. intros Hfit. apply wrap64_id, Hfit.
  - rewrite daily_totals_groupby. unfold groupby_sum at 1.
    rewrite dropna_keys_keyed.
    apply (groupby_fold_sorted_input (groupby_sum keys) []);
      [exact Hs | apply groupby_sum_int64].
Qed.

(** C8, counterexample. Two rows of one date whose seats add up to
    2^63: the daily value is -2^63, not the sum. *)
Lemma daily_total_wraps_at_int64 :
  let day := Timestamp 2023 1 1 in
  let df := [observation day (2 ^ 63 - 1); observation day 1] in
  daily_rows (Aggregator df) = [(day, - 2 ^ 63)] /\
  fold_right Z.add 0 (map Seats_Booked (List.filter (on_date day) df)) = 2 ^ 63 /\
  int64 (2 ^ 63 - 1) /\ int64 1.
Proof.
  vm_compute. split; [reflexivity |]. split; [reflexivity |].
  split; split; discriminate || reflexivity.
Qed.

(** A row without a date is in no group. *)
Example undated_rows_are_left_out :
  let day := Timestamp 2023 1 1 in
  let df := [observation day 5; undated 7] in
  daily_rows (Aggregator df) = [(day, 5)] /\
  In None (map Date df).
Proof. vm_compute. split; [reflexivity | right; left; reflexivity]. Qed.

(* ===================================================================== *)
(** * Future dates *)
(* ===================================================================== *)




Lemma iloc_last_nonempty {A : Type} (col : list A) (d : A) :
  col <> [] -> iloc_last col = Ok (List.last col d).
Proof.
  intros Hne. unfold iloc_last.
  destruct (exists_last Hne) as (front & x & ->).
  rewrite rev_unit, last_last. reflexivity.
Qed.

Lemma iloc_last_empty {A : Type} : iloc_last (@nil A) = Raise IndexError.
Proof. reflexivity. Qed.



(* ===================================================================== *)
(** * Evaluation *)
(* ===================================================================== *)

Section Metric.
Local Open Scope R_scope.

Lemma mean_squared_error_defined (y_true y_pred : list R) :
  length y_true = length y_pred ->
  (1 <= length y_true)%nat ->
  mean_squared_error y_true y_pred =
    Ok (Rsum (squared_errors y_true y_pred) / INR (length y_true)).
Proof.
  intros Hlen Hpos. unfold mean_squared_error.
  rewrite (proj2 (Nat.eqb_eq _ _) Hlen). cbn [negb].
  destruct (Nat.eqb_spec (length y_true) 0) as [H0 | _]; [lia | reflexivity].
Qed.

Lemma mean_squared_error_raises (y_true y_pred : list R) :
  length y_true <> length y_pred ->
  mean_squared_error y_true y_pred = Raise ValueError.
Proof.
  intros Hlen. unfold mean_squared_error.
  rewrite (proj2 (Nat.eqb_neq _ _) Hlen). reflexivity.
Qed.

End Metric.

Lemma length_col_Seats_Booked (df : DailyFrame) :
  length (col_Seats_Booked df) = len df.
Proof. unfold col_Seats_Booked, len. apply length_map. Qed.

Section Binary64Facts.
Import Binary64.

(** Known float64 results: 1/3 and the square root of 2 (rounded once),
    0.1 + 0.2 (rounded up to 0.30000000000000004), twice the largest
    finite value (infinity), the square root of the smallest subnormal
    (2^-537), and the square of 1e-200 (underflow to 0). *)
Example binary64_known_values :
  forallb (fun b : bool => b)
    [eqb (div (of_int 1) (of_int 3)) (finite 6004799503160661 (-54));
     eqb (sqrt (of_int 2)) (finite 6369051672525773 (-52));
     eqb (add (finite 7205759403792794 (-56)) (finite 7205759403792794 (-55)))
         (finite 5404319552844596 (-54));
     eqb (add (finite 9007199254740991 971) (finite 9007199254740991 971))
         (infinity false);
     eqb (sqrt (finite 1 (-1074))) (finite 1 (-537));
     eqb (mul (finite 6894565328877484 (-717)) (finite 6894565328877484 (-717)))
         (finite 0 0);
     eqb (of_int (2 ^ 53 + 1)) (finite 1 53);
     match sub (infinity false) (infinity false) with nan => true | _ => false end]
  = true.
Proof. vm_compute. reflexivity. Qed.




















End Binary64Facts.

(** C9. On the test part of any series of length n >= 2 the evaluation
    forecast is requested with steps = |test|, so predictions and true
    values have the same length; the length check of the metric passes and
    the evaluation returns a score instead of raising. *)
Theorem forecast_and_test_lengths_agree (Model : Type)
    (get_forecast : Model -> nat -> list R) (fitted : Model)
    (working : DailyFrame) :
  (forall m k, length (get_forecast m k) = k) ->
  (2 <= len working)%nat ->
  Z.of_nat (len working) < 2 ^ 50 ->
  let test := snd (train_test_split working) in
  let y_true := map IZR (col_Seats_Booked test) in
  let predicted_mean := get_forecast fitted (len test) in
  length predicted_mean = length y_true /\
  (exists mse, mean_squared_error y_true predicted_mean = Ok mse) /\
  (exists score,
     evaluate Model get_forecast fitted test = Ok (predicted_mean, score)) /\
  (forall e, evaluate Model get_forecast fitted test <> Raise e).
Proof.
  intros Hsteps H2 Hn. cbv zeta.
  set (test := snd (train_test_split working)).
  assert (Htest : (1 <= len test)%nat).
  { subst test. unfold train_test_split. cbn [snd]. rewrite len_slice_from.
    destruct (train_size_bounds (len working) Hn) as (_ & Hbig & _).
    destruct (Hbig H2). lia. }
  assert (Hlen : length (get_forecast fitted (len test)) =
                 length (map IZR (col_Seats_Booked test))).
  { rewrite Hsteps, length_map, length_col_Seats_Booked. reflexivity. }
  assert (Hmse : mean_squared_error (map IZR (col_Seats_Booked test))
                   (get_forecast fitted (len test)) =
                 Ok (Rsum (squared_errors (map IZR (col_Seats_Booked test))
                             (get_forecast fitted (len test)))
                     / INR (length (map IZR (col_Seats_Booked test))))%R).
  { apply mean_squared_error_defined; [symmetry; exact Hlen |].
    rewrite length_map, length_col_Seats_Booked. exact Htest. }
  split; [exact Hlen |]. split; [eexists; exact Hmse |].
  assert (Heval : exists score,
             evaluate Model get_forecast fitted test =
             Ok (get_forecast fitted (len test), score)).
  { unfold evaluate. rewrite Hmse. cbn [bind]. eexists. reflexivity. }
  split; [exact Heval |].
  intros e He. destruct Heval as [score Heval]. congruence.
Qed.

Lemma forecast_and_test_lengths_agree_witness :
  length (Stub.get_forecast [10; 12; 9]
            (len (snd (train_test_split four_days_frame)))) =
  length (map IZR (col_Seats_Booked (snd (train_test_split four_days_frame)))).
Proof.
  assert (Hsteps : forall (m : Stub.Model) k, length (Stub.get_forecast m k) = k).
  { intros m k. apply repeat_length. }
  assert (H2 : (2 <= len four_days_frame)%nat) by (vm_compute; lia).
  assert (Hn : Z.of_nat (len four_days_frame) < 2 ^ 50) by (vm_compute; reflexivity).
  exact (proj1 (forecast_and_test_lengths_agree Stub.Model Stub.get_forecast
                  [10; 12; 9] four_days_frame Hsteps H2 Hn)).
Defined.

(* ===================================================================== *)
(** * Stationarity check and the page as a whole *)
(* ===================================================================== *)

Lemma at_label_below (a m i : nat) (ds : list Z) :
  (i < a)%nat -> at_label (combine (seq a m) ds) i = None.
Proof.
  revert a ds. induction m as [| m IH]; intros a ds Hi; [reflexivity |].
  destruct ds as [| d ds]; [reflexivity |].
  cbn [seq combine at_label].
  destruct (Nat.eqb_spec i a) as [-> | _]; [lia |].
  apply IH. lia.
Qed.

Lemma at_label_own_index (a : nat) (ds : list Z) :
  map (at_label (combine (seq a (length ds)) ds)) (seq a (length ds)) =
  map Some ds.
Proof.
  revert a. induction ds as [| d ds IH]; intros a; [reflexivity |].
  cbn [length seq combine map at_label]. rewrite Nat.eqb_refl. f_equal.
  rewrite <- (IH (S a)). apply map_ext_in. intros i Hi.
  apply in_seq in Hi.
  destruct (Nat.eqb_spec i a) as [-> | _]; [lia | reflexivity].
Qed.

Lemma dropna_diff_after (a : nat) (v : Z) (l : list Z) :
  dropna (diff_after v (combine (seq a (length l)) l)) =
  combine (seq a (length l)) (first_difference (v :: l)).
Proof.
  revert a v. induction l as [| x l IH]; intros a v; [reflexivity |].
  cbn [length seq combine diff_after dropna]. rewrite IH. reflexivity.
Qed.

Lemma length_first_difference (v : Z) (l : list Z) :
  length (first_difference (v :: l)) = length l.
Proof.
  revert v. induction l as [| x l IH]; intros v; [reflexivity |].
  change (first_difference (v :: x :: l))
    with ((x - v) :: first_difference (x :: l)).
  cbn [length]. rewrite IH. reflexivity.
Qed.

(** The column written by line 93: NaN in the first row, then the
    differences; the frame keeps every row. *)
Lemma Seats_Booked_Diff_column (df : DailyFrame) :
  assign_Seats_Booked_Diff df
    (dropna (Series_diff (as_series (col_Seats_Booked df)))) =
  {| daily_rows := daily_rows df;
     Seats_Booked_Diff :=
       Some match col_Seats_Booked df with
            | [] => []
            | _ :: _ => None :: map Some (first_difference (col_Seats_Booked df))
            end |}.
Proof.
  unfold assign_Seats_Booked_Diff. f_equal. f_equal.
  assert (Hlen : len df = length (col_Seats_Booked df)).
  { unfold len, col_Seats_Booked. rewrite length_map. reflexivity. }
  rewrite Hlen. unfold as_series.
  destruct (col_Seats_Booked df) as [| v l]; [reflexivity |].
  cbn [length seq combine Series_diff dropna map].
  rewrite dropna_diff_after.
  rewrite at_label_below by lia. f_equal.
  rewrite <- (at_label_own_index 1 (first_difference (v :: l))).
  rewrite length_first_difference. reflexivity.
Qed.

Lemma check_stationarity_rows (df : DailyFrame) (p : Q) :
  daily_rows (fst (check_stationarity df p)) = daily_rows df.
Proof.
  unfold check_stationarity.
  destruct (negb (Qle_bool p Float64.lit_0_05)); reflexivity.
Qed.

Section Page.

Context (Model : Type)
        (adfuller : list Z -> result (Q * Q))
        (SARIMAX_fit : list Z -> Z * Z * Z -> Z * Z * Z * Z -> result Model)
        (get_forecast forecast : Model -> nat -> list R)
        (st_slider : nat -> nat -> nat -> nat).

Local Abbreviation run :=
  (demand_forecasting Model adfuller SARIMAX_fit get_forecast forecast st_slider).

Lemma demand_forecasting_inv (df : list RawObservation) (page : ForecastPage Model) :
  run df = Ok page ->
  exists stat,
    adfuller (col_Seats_Booked (Aggregator df)) = Ok (stat, p_value page) /\
    df_daily page = fst (check_stationarity (Aggregator df) (p_value page)) /\
    stationarity_message page =
      snd (check_stationarity (Aggregator df) (p_value page)) /\
    train page = fst (train_test_split (df_daily page)) /\
    test page = snd (train_test_split (df_daily page)) /\
    train_sarima Model SARIMAX_fit (col_Seats_Booked (train page)) =
      Ok (sarima_result page) /\
    evaluate Model get_forecast (sarima_result page) (test page) =
      Ok (test_forecast_mean page, rmse page) /\
    future_steps page = st_slider 7 90 30 /\
    forecast_future Model forecast (sarima_result page) (df_daily page)
      (future_steps page) = Ok (sarima_forecast_next page, future_dates page).
Proof.
  unfold demand_forecasting, adf_test.
  destruct (adfuller (col_Seats_Booked (Aggregator df))) as [[stat pv] | e];
    cbn [bind snd]; [| discriminate].
  destruct (train_sarima Model SARIMAX_fit _) as [fitted | e] eqn:Hfit;
    cbn [bind]; [| discriminate].
  destruct (evaluate Model get_forecast fitted _) as [[mean score] | e] eqn:Heval;
    cbn [bind]; [| discriminate].
  destruct (forecast_future Model forecast fitted _ _) as [[next dates] | e] eqn:Hfut;
    cbn [bind]; [| discriminate].
  intros [= <-]. cbn. exists stat. repeat split; assumption.
Qed.


(** C1, what the code does. Whatever the p-value, the frame keeps all
    its rows and its [Seats_Booked] column; the model is fitted on the
    first [train_size] values of that original column and the test part
    holds the remaining original values.  When the p-value exceeds 0.05
    the page reports that differencing was applied, and the differences
    sit (behind a leading NaN) in the extra column [Seats_Booked_Diff],
    which no later line reads. *)
Theorem fitted_on_original_series_whatever_the_p_value
    (df : list RawObservation) (page : ForecastPage Model) :
  run df = Ok page ->
  let seats := col_Seats_Booked (Aggregator df) in
  let k := train_size (length seats) in
  col_Seats_Booked (df_daily page) = seats /\
  len (df_daily page) = length seats /\
  train_sarima Model SARIMAX_fit (firstn k seats) = Ok (sarima_result page) /\
  col_Seats_Booked (test page) = skipn k seats /\
  (Qlt Float64.lit_0_05 (p_value page) ->
     stationarity_message page = msg_not_stationary /\
     Seats_Booked_Diff (df_daily page) =
       Some match seats with
            | [] => []
            | _ :: _ => None :: map Some (first_difference seats)
            end) /\
  (Qle (p_value page) Float64.lit_0_05 ->
     stationarity_message page = msg_stationary /\
     df_daily page = Aggregator df).
Proof.
  intros Hrun. cbv zeta.
  destruct (demand_forecasting_inv df page Hrun)
    as (stat & _ & Hdaily & Hmsg & Htrain & Htest & Hfit & _).
  assert (Hrows : daily_rows (df_daily page) = daily_rows (Aggregator df)).
  { rewrite Hdaily. apply check_stationarity_rows. }
  assert (Hseats : col_Seats_Booked (df_daily page) =
                   col_Seats_Booked (Aggregator df)).
  { unfold col_Seats_Booked. rewrite Hrows. reflexivity. }
  assert (Hlen : len (df_daily page) = length (col_Seats_Booked (Aggregator df))).
  { rewrite <- Hseats. unfold len, col_Seats_Booked. rewrite length_map. reflexivity. }
  split; [exact Hseats |]. split; [exact Hlen |]. split; [| split; [| split]].
  - rewrite <- Hfit, Htrain. unfold train_test_split. cbn [fst].
    unfold col_Seats_Booked at 3. cbn [slice_to daily_rows].
    rewrite <- firstn_map. fold (col_Seats_Booked (df_daily page)).
    rewrite Hseats, Hlen. reflexivity.
  - rewrite Htest. unfold train_test_split. cbn [snd].
    unfold col_Seats_Booked at 1. cbn [slice_from daily_rows].
    rewrite <- skipn_map. fold (col_Seats_Booked (df_daily page)).
    rewrite Hseats, Hlen. reflexivity.
  - intros Hp. rewrite Hmsg, Hdaily. unfold check_stationarity.
    destruct (Qle_bool (p_value page) Float64.lit_0_05) eqn:Hle.
    + apply Qle_bool_iff in Hle. apply Qlt_not_le in Hp. contradiction.
    + cbn [negb fst snd]. split; [reflexivity |].
      rewrite Seats_Booked_Diff_column. reflexivity.
  - intros Hp. rewrite Hmsg, Hdaily. unfold check_stationarity.
    apply Qle_bool_iff in Hp. rewrite Hp. split; reflexivity.
Qed.

(** C4, as the code has it. Lines 99-100 contain no check and raise
    nothing: every series is split into its first floor(0.8 n) rows and the
    rest, and both parts are non-empty exactly when n >= 2; a series of
    fewer than two rows gives an empty train part and itself as test part.
    In a run of the page such a series does not get that far: when
    [adfuller] raises on series of fewer than two values, as statsmodels
    does, the run ends at line 92 with that exception, and every page that
    is rendered has at least two daily rows and two non-empty parts. *)
Theorem split_parts_nonempty_iff (ws : DailyFrame) (df : list RawObservation) :
  Z.of_nat (len ws) < 2 ^ 50 ->
  let train_part := fst (train_test_split ws) in
  let test_part := snd (train_test_split ws) in
  (train_part = slice_to (4 * len ws / 5) ws /\
   test_part = slice_from (4 * len ws / 5) ws /\
   len train_part = (4 * len ws / 5)%nat /\
   len test_part = (len ws - 4 * len ws / 5)%nat /\
   ((1 <= len train_part)%nat /\ (1 <= len test_part)%nat <->
    (2 <= len ws)%nat) /\
   ((len ws < 2)%nat -> len train_part = 0%nat /\ test_part = ws)) /\
  ((forall series, (length series < 2)%nat ->
                   exists e, adfuller series = Raise e) ->
   ((len (Aggregator df) < 2)%nat ->
    exists e, adfuller (col_Seats_Booked (Aggregator df)) = Raise e /\
              run df = Raise e) /\
   (forall page, run df = Ok page ->
                 Z.of_nat (len (df_daily page)) < 2 ^ 50 ->
                 (2 <= len (df_daily page))%nat /\
                 (1 <= len (train page))%nat /\
                 (1 <= len (test page))%nat)).
Proof.
  intros Hn. cbv zeta. split.
  - unfold train_test_split. cbn [fst snd].
    destruct (train_size_bounds (len ws) Hn) as (Hle & Hbig & Hsmall).
    rewrite len_slice_to by exact Hle.
    rewrite len_slice_from.
    rewrite (train_size_floor (len ws) Hn) in *.
    split; [reflexivity |]. split; [reflexivity |].
    split; [reflexivity |]. split; [reflexivity |]. split.
    + split.
      * intros [H1 H2]. destruct (le_lt_dec 2 (len ws)) as [|Hlt]; [assumption |].
        specialize (Hsmall Hlt). lia.
      * intros H2. destruct (Hbig H2). lia.
    + intros Hlt. rewrite (Hsmall Hlt). split; [reflexivity |].
      destruct ws as [rows [c |]]; reflexivity.
  - intros Hshort. split.
    + intros Hlt.
      destruct (Hshort (col_Seats_Booked (Aggregator df))) as [e He].
      { rewrite length_col_Seats_Booked. exact Hlt. }
      exists e. split; [exact He |].
      unfold demand_forecasting, adf_test. rewrite He. reflexivity.
    + intros page Hrun Hpage.
      destruct (demand_forecasting_inv df page Hrun)
        as (stat & Hadf & Hdaily & _ & Htrain & Htest & _).
      assert (Hlen : len (df_daily page) = len (Aggregator df)).
      { unfold len. rewrite Hdaily, check_stationarity_rows. reflexivity. }
      assert (H2 : (2 <= len (df_daily page))%nat).
      { rewrite Hlen. destruct (le_lt_dec 2 (len (Aggregator df))) as [| Hlt];
          [assumption |].
        destruct (Hshort (col_Seats_Booked (Aggregator df))) as [e He].
        { rewrite length_col_Seats_Booked. exact Hlt. }
        rewrite He in Hadf. discriminate. }
      split; [exact H2 |].
      rewrite Htrain, Htest. unfold train_test_split. cbn [fst snd].
      destruct (train_size_bounds (len (df_daily page)) Hpage) as (Hle & Hbig & _).
      rewrite len_slice_to by exact Hle. rewrite len_slice_from.
      destruct (Hbig H2). lia.
Qed.


End Page.

Ltac run_stub :=
  cbv -[sqrt Rsum squared_errors IZR INR Rdiv Rplus Rmult Rminus Rinv];
  reflexivity.

Lemma fitted_on_original_series_whatever_the_p_value_witness :
  demand_forecasting Stub.Model Stub.adfuller Stub.SARIMAX_fit
    Stub.get_forecast Stub.forecast Stub.st_slider five_trips = Ok stub_page /\
  Stub.SARIMAX_fit (firstn 3 [10; 12; 9; 15]) (1, 1, 1) (1, 1, 1, 60) =
    Ok (sarima_result stub_page) /\
  col_Seats_Booked (test stub_page) = [15] /\
  stationarity_message stub_page = msg_not_stationary.
Proof.
  assert (Hrun : demand_forecasting Stub.Model Stub.adfuller Stub.SARIMAX_fit
                   Stub.get_forecast Stub.forecast Stub.st_slider five_trips
                 = Ok stub_page) by run_stub.
  assert (Hp : Qlt Float64.lit_0_05 (p_value stub_page)) by reflexivity.
  destruct (fitted_on_original_series_whatever_the_p_value
              Stub.Model Stub.adfuller Stub.SARIMAX_fit Stub.get_forecast
              Stub.forecast Stub.st_slider five_trips stub_page Hrun)
    as (_ & _ & Hfit & Htest & Hdiff & _).
  split; [exact Hrun |]. split; [exact Hfit |]. split; [exact Htest |].
  exact (proj1 (Hdiff Hp)).
Defined.

Lemma stub_adfuller_short (series : list Z) :
  (length series < 2)%nat -> exists e, Stub.adfuller series = Raise e.
Proof.
  intros Hlt. exists ValueError. unfold Stub.adfuller.
  destruct (Nat.ltb_spec (length series) 2); [reflexivity | lia].
Qed.

Lemma split_parts_nonempty_iff_witness :
  (len (fst (train_test_split four_days_frame)) = 3%nat /\
   len (snd (train_test_split four_days_frame)) = 1%nat) /\
  (exists e,
     demand_forecasting Stub.Model Stub.adfuller Stub.SARIMAX_fit
       Stub.get_forecast Stub.forecast Stub.st_slider one_day_trips = Raise e) /\
  (2 <= len (df_daily stub_page))%nat.
Proof.
  assert (Hn : Z.of_nat (len four_days_frame) < 2 ^ 50) by (vm_compute; reflexivity).
  assert (Hrun : demand_forecasting Stub.Model Stub.adfuller Stub.SARIMAX_fit
                   Stub.get_forecast Stub.forecast Stub.st_slider five_trips
                 = Ok stub_page) by run_stub.
  destruct (split_parts_nonempty_iff Stub.Model Stub.adfuller Stub.SARIMAX_fit
              Stub.get_forecast Stub.forecast Stub.st_slider
              four_days_frame one_day_trips Hn)
    as ((_ & _ & Htrain & Htest & _) & Hpage).
  destruct (Hpage stub_adfuller_short) as (Hshort & _).
  destruct (split_parts_nonempty_iff Stub.Model Stub.adfuller Stub.SARIMAX_fit
              Stub.get_forecast Stub.forecast Stub.st_slider
              four_days_frame five_trips Hn) as (_ & Hpage').
  destruct (Hpage' stub_adfuller_short) as (_ & Hrendered).
  split; [split; [exact Htrain | exact Htest] |]. split.
  - destruct Hshort as (e & _ & He); [vm_compute; lia |]. exists e. exact He.
  - apply (Hrendered stub_page Hrun). vm_compute. reflexivity.
Defined.

(** C4, counterexample. On a one-row series (n < 2) the lines of the
    split return: an empty train part and the whole series as test part.
    In a run on a dataset with a single date the exception is the one
    [adfuller] raised on the one-value series, before the split. *)
Lemma split_of_one_row_returns :
  len one_day_frame = 1%nat /\
  train_test_split one_day_frame = (empty_frame, one_day_frame) /\
  len (Aggregator one_day_trips) = 1%nat /\
  Stub.adfuller (col_Seats_Booked (Aggregator one_day_trips)) = Raise ValueError /\
  demand_forecasting Stub.Model Stub.adfuller Stub.SARIMAX_fit
    Stub.get_forecast Stub.forecast Stub.st_slider one_day_trips =
    Raise ValueError.
Proof. repeat split; reflexivity. Qed.


(* ===================================================================== *)
(** * The "Upload Data" page *)
(* ===================================================================== *)

Lemma mem_string_In (c : string) (l : list string) :
  mem_string c l = true <-> In c l.
Proof.
  unfold mem_string. rewrite existsb_exists. split.
  - intros (x & Hx & Heq). apply String.eqb_eq in Heq. subst x. exact Hx.
  - intros Hc. exists c. split; [exact Hc | apply String.eqb_refl].
Qed.

Lemma select_cells_filter {A : Type} (f : A -> bool) (cells : list A) :
  select_cells (map f cells) cells = List.filter f cells.
Proof.
  induction cells as [| c cells IH]; [reflexivity |].
  cbn [map select_cells List.filter]. rewrite IH. reflexivity.
Qed.


Lemma same_column_set_true (a b : list string) :
  same_column_set a b = true <->
  (list_to_set a : gset string) = list_to_set b.
Proof. unfold same_column_set. apply bool_decide_eq_true. Qed.

Lemma same_column_set_false (a b : list string) :
  same_column_set a b = false <->
  (list_to_set a : gset string) <> list_to_set b.
Proof. unfold same_column_set. apply bool_decide_eq_false. Qed.

Lemma column_set_In (a b : list string) :
  (list_to_set a : gset string) = list_to_set b <->
  (forall c, In c a <-> In c b).
Proof.
  rewrite set_eq. split; intros H c; specialize (H c);
    rewrite !elem_of_list_to_set, !list_elem_of_In in *; exact H.
Qed.

Lemma append_empty_r (s : string) : (s ++ EmptyString)%string = s.
Proof.
  induction s as [| c s IH]; [reflexivity |].
  change (String c (s ++ EmptyString)%string = String c s). f_equal. exact IH.
Qed.

Lemma append_assoc (a b c : string) :
  ((a ++ b) ++ c)%string = (a ++ b ++ c)%string.
Proof.
  induction a as [| x a IH]; [reflexivity |].
  change (String x ((a ++ b) ++ c)%string = String x (a ++ b ++ c)%string).
  f_equal. exact IH.
Qed.

Section SplitFacts.

Variable sep : ascii.

Lemma split_on_nonempty (s : string) : split_on sep s <> [].
Proof.
  destruct s as [| c s]; cbn [split_on]; [discriminate |].
  destruct (Ascii.eqb c sep); [discriminate |].
  destruct (split_on sep s); discriminate.
Qed.

Lemma split_on_String (c : ascii) (s : string) :
  split_on sep (String c s) =
  if Ascii.eqb c sep then EmptyString :: split_on sep s
  else String c (hd EmptyString (split_on sep s)) :: tl (split_on sep s).
Proof.
  cbn [split_on]. destruct (Ascii.eqb c sep); [reflexivity |].
  pose proof (split_on_nonempty s) as Hne.
  destruct (split_on sep s); [congruence | reflexivity].
Qed.

(** Splitting a concatenation: the last piece of the left part continues
    into the first piece of the right part. *)
Lemma split_on_app (s t : string) :
  split_on sep (s ++ t) =
  removelast (split_on sep s) ++
  (List.last (split_on sep s) EmptyString ++ hd EmptyString (split_on sep t))%string
  :: tl (split_on sep t).
Proof.
  induction s as [| c s IH].
  - change (EmptyString ++ t)%string with t.
    cbn [split_on removelast List.last app].
    change (EmptyString ++ hd EmptyString (split_on sep t))%string
      with (hd EmptyString (split_on sep t)).
    pose proof (split_on_nonempty t) as Hne.
    destruct (split_on sep t); [congruence | reflexivity].
  - change (String c s ++ t)%string with (String c (s ++ t)%string).
    rewrite !split_on_String. rewrite IH.
    pose proof (split_on_nonempty s) as Hne.
    destruct (Ascii.eqb c sep).
    + destruct (split_on sep s) as [| p ps]; [congruence | reflexivity].
    + destruct (split_on sep s) as [| p ps]; [congruence |].
      destruct ps as [| p' ps]; reflexivity.
Qed.

Lemma occurs_app (s t : string) :
  occurs sep (s ++ t) = occurs sep s || occurs sep t.
Proof.
  induction s as [| c s IH]; [reflexivity |].
  change (String c s ++ t)%string with (String c (s ++ t)%string).
  cbn [occurs]. rewrite IH, orb_assoc. reflexivity.
Qed.

Lemma split_on_absent (s : string) :
  occurs sep s = false -> split_on sep s = [s].
Proof.
  induction s as [| c s IH]; intros Hs; [reflexivity |].
  cbn [occurs] in Hs. apply orb_false_iff in Hs as [Hc Hs].
  rewrite split_on_String, Hc, (IH Hs). reflexivity.
Qed.

End SplitFacts.

Section LineFacts.

Lemma join_cons (sep c : string) (rest : list string) :
  rest <> [] -> join sep (c :: rest) = (c ++ sep ++ join sep rest)%string.
Proof. destruct rest; [congruence | reflexivity]. Qed.

Lemma split_join (cells : list string) :
  cells <> [] ->
  (forall c, In c cells -> occurs ","%char c = false) ->
  split_on ","%char (join "," cells) = cells.
Proof.
  induction cells as [| c rest IH]; intros Hne Hplain; [congruence |].
  destruct rest as [| c' rest].
  - cbn [join]. apply split_on_absent, Hplain. left. reflexivity.
  - rewrite join_cons by discriminate.
    rewrite split_on_app.
    rewrite (split_on_absent _ c) by (apply Hplain; left; reflexivity).
    change ("," ++ join "," (c' :: rest))%string
      with (String ","%char (join "," (c' :: rest))).
    rewrite split_on_String. rewrite Ascii.eqb_refl.
    rewrite IH; [| discriminate | intros x Hx; apply Hplain; right; exact Hx].
    cbn [removelast List.last hd tl app]. rewrite append_empty_r. reflexivity.
Qed.

Lemma occurs_join (a : ascii) (cells : list string) :
  Ascii.eqb ","%char a = false ->
  (forall c, In c cells -> occurs a c = false) ->
  occurs a (join "," cells) = false.
Proof.
  intros Ha. induction cells as [| c rest IH]; intros Hplain; [reflexivity |].
  destruct rest as [| c' rest].
  - cbn [join]. apply Hplain. left. reflexivity.
  - rewrite join_cons by discriminate. rewrite !occurs_app.
    rewrite (Hplain c (or_introl eq_refl)).
    rewrite IH by (intros x Hx; apply Hplain; right; exact Hx).
    cbn [occurs]. rewrite Ha. reflexivity.
Qed.

Lemma needs_quotes_false (s : string) :
  needs_quotes s = false ->
  occurs ","%char s = false /\ occurs linefeed s = false.
Proof.
  unfold needs_quotes. intros H.
  apply orb_false_iff in H as [H _]. apply orb_false_iff in H as [H Hnl].
  apply orb_false_iff in H as [Hcomma _]. split; assumption.
Qed.

Lemma csv_fields_plain (fields : list string) :
  (forall t, In t fields -> needs_quotes t = false) ->
  map csv_field fields = fields.
Proof.
  induction fields as [| t fields IH]; intros Hall; [reflexivity |].
  cbn [map]. unfold csv_field at 1. rewrite (Hall t (or_introl eq_refl)).
  rewrite IH by (intros x Hx; apply Hall; right; exact Hx). reflexivity.
Qed.

(** A plain record is written as the texts of its cells, joined by
    commas; the line is one line, not blank, and splits at its commas into
    those texts. *)
Lemma plain_record_facts (cells : list cell) :
  plain_record cells = true ->
  to_csv_line cells = plain_line cells /\
  occurs linefeed (plain_line cells) = false /\
  plain_line cells <> EmptyString /\
  split_on ","%char (plain_line cells) = map cell_text cells.
Proof.
  unfold plain_record, plain_line. intros H.
  apply andb_true_iff in H as [Hcells Hline].
  apply negb_true_iff in Hline. apply String.eqb_neq in Hline.
  rewrite forallb_forall in Hcells.
  assert (Hplain : forall t, In t (map cell_text cells) -> needs_quotes t = false).
  { intros t Ht. apply in_map_iff in Ht as (c & <- & Hc).
    specialize (Hcells c Hc). unfold plain_cell in Hcells.
    apply negb_true_iff in Hcells. exact Hcells. }
  assert (Hne : map cell_text cells <> []).
  { intros Hnil. rewrite Hnil in Hline. apply Hline. reflexivity. }
  split; [| split; [| split]].
  - unfold to_csv_line, writerow. rewrite (csv_fields_plain _ Hplain).
    destruct (map cell_text cells) as [| t [| t' ts]]; try reflexivity.
    + destruct t; [exfalso; apply Hline; reflexivity | reflexivity].
    + destruct t; reflexivity.
  - apply occurs_join; [reflexivity |].
    intros t Ht. apply (needs_quotes_false t (Hplain t Ht)).
  - exact Hline.
  - apply split_join; [exact Hne |].
    intros t Ht. apply (needs_quotes_false t (Hplain t Ht)).
Qed.

Lemma concat_cons (h : string) (t : list string) :
  String.concat EmptyString (h :: t) = (h ++ String.concat EmptyString t)%string.
Proof.
  destruct t as [| h' t]; [| reflexivity].
  cbn [String.concat]. symmetry. apply append_empty_r.
Qed.

Lemma to_csv_body_cons (cols : list string) (r : list cell)
    (rs : list (list cell)) :
  to_csv_body {| columns := cols; records := r :: rs |} =
  ((to_csv_line r ++ newline)
   ++ to_csv_body {| columns := cols; records := rs |})%string.
Proof. unfold to_csv_body. cbn [records map]. apply concat_cons. Qed.

Lemma split_terminated_line (line : string) :
  split_on linefeed (line ++ newline) =
  split_on linefeed line ++ [EmptyString].
Proof.
  rewrite split_on_app.
  change (split_on linefeed newline) with [EmptyString; EmptyString].
  cbn [hd tl]. rewrite append_empty_r.
  pose proof (split_on_nonempty linefeed line) as Hne.
  transitivity ((removelast (split_on linefeed line)
                 ++ [List.last (split_on linefeed line) EmptyString])
                ++ [EmptyString]).
  - rewrite <- app_assoc. reflexivity.
  - rewrite <- (app_removelast_last EmptyString Hne). reflexivity.
Qed.

(** Lines of a text that ends in a line break, followed by more text. *)
Lemma split_after_terminated (text rest : string) :
  split_on linefeed ((text ++ newline) ++ rest) =
  split_on linefeed text ++ split_on linefeed rest.
Proof.
  rewrite split_on_app, (split_terminated_line text).
  rewrite removelast_last, last_last.
  change (EmptyString ++ hd EmptyString (split_on linefeed rest))%string
    with (hd EmptyString (split_on linefeed rest)).
  pose proof (split_on_nonempty linefeed rest) as Hne.
  destruct (split_on linefeed rest); [congruence | reflexivity].
Qed.

(** The appended text of plain records: one line per record, no header
    line, and a line break after the last. *)
Lemma body_lines (cols : list string) (rs : list (list cell)) :
  forallb plain_record rs = true ->
  split_on linefeed (to_csv_body {| columns := cols; records := rs |}) =
  map plain_line rs ++ [EmptyString].
Proof.
  induction rs as [| r rs IH]; intros Hplain; [reflexivity |].
  cbn [forallb] in Hplain. apply andb_true_iff in Hplain as [Hr Hrs].
  destruct (plain_record_facts r Hr) as (Hline & Hnl & _ & _).
  rewrite to_csv_body_cons, split_after_terminated, Hline.
  rewrite (split_on_absent _ _ Hnl). cbn [map app].
  rewrite (IH Hrs). reflexivity.
Qed.




End LineFacts.

Section Upload.

Variable read_csv : string -> result DataFrame.

(** A frame loaded with [usecols] has exactly the requested columns. *)
Lemma read_csv_usecols_columns (text : string) (cols : list string)
    (df : DataFrame) :
  read_csv_usecols read_csv text cols = Ok df ->
  (list_to_set (columns df) : gset string) = list_to_set cols.
Proof.
  unfold read_csv_usecols.
  destruct (read_csv text) as [frame | e]; cbn [bind]; [| discriminate].
  destruct (forallb _ cols) eqn:Hall; [| discriminate].
  intros [= <-]. cbn [columns].
  rewrite select_cells_filter.
  rewrite forallb_forall in Hall.
  apply set_eq. intros x.
  rewrite !elem_of_list_to_set, !list_elem_of_In, filter_In, mem_string_In.
  split; [tauto |]. intros Hx. split; [| exact Hx].
  apply mem_string_In, Hall, Hx.
Qed.

Lemma load_dataset_columns (store : string) (df : DataFrame) :
  load_dataset read_csv (Some store) = Ok (Loaded df) ->
  (list_to_set (columns df) : gset string) = list_to_set usecols.
Proof.
  unfold load_dataset.
  destruct (read_csv_usecols read_csv store usecols) as [df' | e] eqn:Hread;
    cbn [bind]; [| discriminate].
  destruct (records df'); [discriminate |].
  intros [= <-]. apply (read_csv_usecols_columns store), Hread.
Qed.

(** A store with the six columns and at least one record is loaded; the
    loaded frame has the store's columns that are among the six, in the
    store's order. *)
Lemma load_dataset_loaded (store : string) (file : DataFrame) :
  read_csv store = Ok file ->
  records file <> [] ->
  (forall c, In c usecols -> In c (columns file)) ->
  exists df,
    load_dataset read_csv (Some store) = Ok (Loaded df) /\
    columns df = List.filter (fun c => mem_string c usecols) (columns file).
Proof.
  intros Hread Hrecords Hcols.
  unfold load_dataset, read_csv_usecols. rewrite Hread. cbn [bind].
  assert (Hall : forallb (fun c => mem_string c (columns file)) usecols = true).
  { apply forallb_forall. intros c Hc. apply mem_string_In, Hcols, Hc. }
  rewrite Hall. cbn [bind records].
  destruct (records file) as [| r rs]; [congruence |].
  cbn [map]. eexists. split; [reflexivity |].
  cbn [columns]. apply select_cells_filter.
Qed.

Lemma upload_data_accepts (df new_data : DataFrame) (store content : string) :
  read_csv content = Ok new_data ->
  (list_to_set (columns new_data) : gset string) = list_to_set (columns df) ->
  upload_data read_csv df store (Some content) =
    Ok ((store ++ to_csv_body new_data)%string, [st_success msg_uploaded]).
Proof.
  intros Hread Hset. unfold upload_data. rewrite Hread. cbn [bind].
  rewrite (proj2 (same_column_set_true _ _) Hset). reflexivity.
Qed.

Lemma upload_data_rejects (df new_data : DataFrame) (store content : string) :
  read_csv content = Ok new_data ->
  (list_to_set (columns new_data) : gset string) <> list_to_set (columns df) ->
  upload_data read_csv df store (Some content) =
    Ok (store, [st_error msg_mismatch]).
Proof.
  intros Hread Hset. unfold upload_data. rewrite Hread. cbn [bind].
  rewrite (proj2 (same_column_set_false _ _) Hset). reflexivity.
Qed.

(** C6, what the code does. The column set of an upload is compared
    with the columns of the loaded frame, which are the six of [usecols]
    whatever else the store holds.  The upload is appended exactly when
    its column set is that of the six; otherwise the page shows the
    column-mismatch error and the store is unchanged, so a file without
    [Ticket_Price] is rejected.  For a store that holds just the six
    columns this is the comparison with the store's own columns.  For a
    store with a further column it is not: an upload with exactly the
    store's columns is rejected, and an upload with the six columns, whose
    column set differs from the store's, is appended.  The appended text of
    plain records is one line per record, the texts of its cells joined by
    commas. *)
Theorem upload_check_compares_with_the_loaded_columns
    (store content : string) (file new_data : DataFrame) :
  read_csv store = Ok file ->
  records file <> [] ->
  (forall c, In c usecols -> In c (columns file)) ->
  read_csv content = Ok new_data ->
  let uploaded : gset string := list_to_set (columns new_data) in
  let schema : gset string := list_to_set (columns file) in
  let six : gset string := list_to_set usecols in
  let appended : result (string * list banner) :=
    Ok ((store ++ to_csv_body new_data)%string, [st_success msg_uploaded]) in
  let rejected : result (string * list banner) :=
    Ok (store, [st_error msg_mismatch]) in
  exists df,
    load_dataset read_csv (Some store) = Ok (Loaded df) /\
    (upload_data read_csv df store (Some content) = appended <->
     uploaded = six) /\
    (uploaded <> six ->
     upload_data read_csv df store (Some content) = rejected) /\
    (~ In "Ticket_Price"%string (columns new_data) ->
     upload_data read_csv df store (Some content) = rejected) /\
    (schema = six ->
     (upload_data read_csv df store (Some content) = appended <->
      uploaded = schema)) /\
    (forall extra, In extra (columns file) -> ~ In extra usecols ->
       (uploaded = schema ->
        upload_data read_csv df store (Some content) = rejected) /\
       (uploaded = six ->
        uploaded <> schema /\
        upload_data read_csv df store (Some content) = appended)) /\
    (forallb plain_record (records new_data) = true ->
     split_on linefeed (to_csv_body new_data) =
       map plain_line (records new_data) ++ [EmptyString]).
Proof.
  intros Hfile Hrecords Hcols Hread. cbv zeta.
  destruct (load_dataset_loaded store file Hfile Hrecords Hcols)
    as (df & Hload & _).
  pose proof (load_dataset_columns store df Hload) as Hdf.
  exists df. split; [exact Hload |].
  assert (Hyes : (list_to_set (columns new_data) : gset string) = list_to_set usecols ->
                 upload_data read_csv df store (Some content) =
                 Ok ((store ++ to_csv_body new_data)%string,
                     [st_success msg_uploaded])).
  { intros Hset. apply (upload_data_accepts df new_data store content Hread).
    congruence. }
  assert (Hno : (list_to_set (columns new_data) : gset string) <> list_to_set usecols ->
                upload_data read_csv df store (Some content) =
                Ok (store, [st_error msg_mismatch])).
  { intros Hset. apply (upload_data_rejects df new_data store content Hread).
    congruence. }
  assert (Hiff : upload_data read_csv df store (Some content) =
                   Ok ((store ++ to_csv_body new_data)%string,
                       [st_success msg_uploaded]) <->
                 (list_to_set (columns new_data) : gset string) = list_to_set usecols).
  { split; [| exact Hyes]. intros Hafter.
    destruct (decide ((list_to_set (columns new_data) : gset string)
                      = list_to_set usecols)) as [Heq | Hne]; [exact Heq |].
    rewrite (Hno Hne) in Hafter. discriminate. }
  assert (Hextra : forall extra, In extra (columns file) -> ~ In extra usecols ->
            (list_to_set (columns file) : gset string) <> list_to_set usecols).
  { intros extra Hin Hout Heq. apply Hout.
    apply (proj1 (column_set_In _ _) Heq), Hin. }
  split; [exact Hiff |]. split; [exact Hno |]. split; [| split; [| split]].
  - intros Hmissing. apply Hno. intros Heq.
    apply Hmissing. apply (proj1 (column_set_In _ _) Heq). cbn. tauto.
  - intros Hsix. rewrite Hsix. exact Hiff.
  - intros extra Hin Hout. split.
    + intros Heq. apply Hno. rewrite Heq. apply (Hextra extra Hin Hout).
    + intros Heq. split; [| apply Hyes, Heq].
      rewrite Heq. intros Hsame. apply (Hextra extra Hin Hout). symmetry. exact Hsame.
  - intros Hplain. destruct new_data as [cols rs]. apply body_lines, Hplain.
Qed.


End Upload.

(* ===================================================================== *)
(** * Aggregation: order of rows and totals *)
(* ===================================================================== *)

Lemma seats_on_Permutation (d : Z) (rows rows' : list (Z * Z)) :
  Permutation rows rows' -> seats_on d rows = seats_on d rows'.
Proof.
  induction 1 as [| [d0 s0] l l' _ IH | [d0 s0] [d1 s1] l | l l' l'' _ IH1 _ IH2].
  - reflexivity.
  - rewrite !seats_on_cons, IH. reflexivity.
  - rewrite !seats_on_cons. lia.
  - congruence.
Qed.

Lemma increasing_dates_ext (l1 l2 : list (Z * Z)) :
  increasing_dates l1 -> increasing_dates l2 ->
  (forall d, In d (map fst l1) <-> In d (map fst l2)) ->
  (forall d, seats_on d l1 = seats_on d l2) ->
  l1 = l2.
Proof.
  unfold increasing_dates. revert l2.
  induction l1 as [| [d1 v1] t1 IH]; intros [| [d2 v2] t2] Hs1 Hs2 Hkeys Hsum.
  - reflexivity.
  - exfalso. apply (proj2 (Hkeys d2)). left. reflexivity.
  - exfalso. apply (proj1 (Hkeys d1)). left. reflexivity.
  - cbn [map fst] in Hs1, Hs2.
    apply StronglySorted_inv in Hs1 as [Hs1 Hall1].
    apply StronglySorted_inv in Hs2 as [Hs2 Hall2].
    rewrite List.Forall_forall in Hall1, Hall2.
    assert (Hd : d1 = d2).
    { pose proof (proj1 (Hkeys d1) (or_introl eq_refl)) as [H12 | H12];
        [symmetry; exact H12 |].
      pose proof (proj2 (Hkeys d2) (or_introl eq_refl)) as [H21 | H21];
        [exact H21 |].
      specialize (Hall2 d1 H12). specialize (Hall1 d2 H21). lia. }
    subst d2.
    assert (Habs1 : ~ In d1 (map fst t1)) by (intros H; specialize (Hall1 d1 H); lia).
    assert (Habs2 : ~ In d1 (map fst t2)) by (intros H; specialize (Hall2 d1 H); lia).
    assert (Hv : v1 = v2).
    { pose proof (Hsum d1) as H. rewrite !seats_on_cons, Z.eqb_refl in H.
      rewrite !seats_on_absent in H by assumption. lia. }
    subst v2. f_equal. apply IH; [exact Hs1 | exact Hs2 | |].
    + intros d. split; intros Hin.
      * destruct (proj1 (Hkeys d) (or_intror Hin)) as [<- | H]; [contradiction | exact H].
      * destruct (proj2 (Hkeys d) (or_intror Hin)) as [<- | H]; [contradiction | exact H].
    + intros d. pose proof (Hsum d) as H. rewrite !seats_on_cons in H. lia.
Qed.

(** X1. The aggregated frame does not depend on the order of the rows of
    the dataset. *)
Theorem aggregation_ignores_row_order (df df' : list RawObservation) :
  Permutation df df' -> Aggregator df = Aggregator df'.
Proof.
  intros Hperm. unfold Aggregator. f_equal.
  rewrite !daily_totals_groupby.
  assert (Hrows : Permutation (map date_and_seats df) (map date_and_seats df'))
    by (apply Permutation_map, Hperm).
  apply increasing_dates_ext; try apply groupby_sum_increasing.
  - intros d. rewrite !groupby_sum_dates.
    split; intros H.
    + eapply Permutation_in; [apply Permutation_map, Hrows | exact H].
    + eapply Permutation_in; [apply Permutation_map, Permutation_sym, Hrows | exact H].
  - intros d. rewrite !groupby_sum_seats.
    rewrite (seats_on_Permutation d _ _ (dropna_keys_Permutation _ _ Hrows)).
    reflexivity.
Qed.

Lemma aggregation_ignores_row_order_witness :
  Aggregator (rev five_trips) = Aggregator five_trips.
Proof.
  apply aggregation_ignores_row_order. apply Permutation_sym, Permutation_rev.
Defined.

Lemma group_add_total (d s : Z) (groups : list (Z * Z)) :
  wrap64 (fold_right Z.add 0 (map snd (group_add d s groups))) =
  wrap64 (fold_right Z.add 0 (map snd groups) + s).
Proof.
  induction groups as [| [d0 s0] groups IH]; cbn [group_add].
  - cbn [map snd fold_right]. rewrite wrap64_add_l. f_equal. lia.
  - destruct (d <? d0).
    + cbn [map snd fold_right]. rewrite wrap64_add_l. f_equal. lia.
    + destruct (d =? d0); cbn [map snd fold_right].
      * rewrite wrap64_add_l. f_equal. lia.
      * rewrite <- wrap64_add_r, IH, wrap64_add_r. f_equal. lia.
Qed.

Lemma group_add_length (d s : Z) (groups : list (Z * Z)) :
  (length groups <= length (group_add d s groups) <= S (length groups))%nat.
Proof.
  induction groups as [| [d0 s0] groups IH]; cbn [group_add].
  - cbn. lia.
  - destruct (d <? d0); [cbn; lia |].
    destruct (d =? d0); cbn [length]; lia.
Qed.

Lemma groupby_fold_total (rows groups : list (Z * Z)) :
  wrap64 (fold_right Z.add 0 (map snd (fold_left add_row rows groups))) =
  wrap64 (fold_right Z.add 0 (map snd groups) + fold_right Z.add 0 (map snd rows)).
Proof.
  revert groups. induction rows as [| [d s] rows IH]; intros groups.
  - cbn. f_equal. lia.
  - cbn [fold_left]. rewrite IH. unfold add_row. cbn [fst snd map fold_right].
    rewrite <- wrap64_add_l, group_add_total, wrap64_add_l. f_equal. lia.
Qed.

Lemma groupby_fold_length (rows groups : list (Z * Z)) :
  (length (fold_left add_row rows groups) <= length groups + length rows)%nat.
Proof.
  revert groups. induction rows as [| r rows IH]; intros groups.
  - cbn. lia.
  - cbn [fold_left length]. specialize (IH (add_row groups r)).
    pose proof (group_add_length (fst r) (snd r) groups) as Hadd.
    fold (add_row groups r) in Hadd. lia.
Qed.

(** The totals of the dates of a list that names each date once add up to
    the total of the rows on those dates. *)
Lemma total_by_dates (dates : list Z) (rows : list (Z * Z)) :
  List.NoDup dates ->
  (forall d, In d (map fst rows) -> In d dates) ->
  fold_right Z.add 0 (map (fun d => seats_on d rows) dates) =
  fold_right Z.add 0 (map snd rows).
Proof.
  intros Hnd. induction rows as [| [d0 s0] rows IH]; intros Hin.
  - clear. induction dates as [| d dates IH]; [reflexivity |].
    cbn [map fold_right]. rewrite IH. reflexivity.
  - cbn [map snd fold_right]. rewrite <- IH
      by (intros d Hd; apply Hin; right; exact Hd).
    assert (Hd0 : In d0 dates) by (apply Hin; left; reflexivity).
    clear IH Hin. induction dates as [| d dates IH]; [destruct Hd0 |].
    apply NoDup_cons_iff in Hnd as [Hout Hnd].
    cbn [map fold_right]. rewrite seats_on_cons.
    destruct Hd0 as [-> | Hd0].
    + rewrite Z.eqb_refl.
      assert (Hrest : forall l, ~ In d0 l ->
                fold_right Z.add 0 (map (fun d => seats_on d ((d0, s0) :: rows)) l) =
                fold_right Z.add 0 (map (fun d => seats_on d rows) l)).
      { clear. induction l as [| d l IHl]; intros Hl; [reflexivity |].
        cbn [map fold_right]. rewrite seats_on_cons, IHl by (cbn in Hl; tauto).
        destruct (Z.eqb_spec d0 d) as [-> | _]; [cbn in Hl; tauto | lia]. }
      rewrite (Hrest dates Hout). lia.
    + rewrite (IH Hnd Hd0).
      destruct (Z.eqb_spec d0 d) as [-> | _]; [contradiction | lia].
Qed.

Lemma dropna_keys_dataset (df : list RawObservation) :
  map snd (dropna_keys (map date_and_seats df)) =
  map Seats_Booked (List.filter has_date df).
Proof.
  induction df as [| r df IH]; [reflexivity |].
  cbn [map List.filter]. unfold date_and_seats at 1, has_date at 1.
  destruct (Date r); cbn [dropna_keys map snd]; rewrite IH; reflexivity.
Qed.

(** X2. Aggregation loses no seat of a dated row: the daily totals and the
    seats of the rows that have a date add up to the same [int64] number,
    and to the same integer when the total of every date fits in 64 bits;
    there are at most as many days as dated rows, and no day exactly when
    no row has a date. *)
Theorem aggregation_conserves_seats (df : list RawObservation) :
  let dated := List.filter has_date df in
  let seats_of (d : Z) :=
    fold_right Z.add 0 (map Seats_Booked (List.filter (on_date d) df)) in
  wrap64 (fold_right Z.add 0 (col_Seats_Booked (Aggregator df))) =
    wrap64 (fold_right Z.add 0 (map Seats_Booked dated)) /\
  ((forall d, int64 (seats_of d)) ->
   fold_right Z.add 0 (col_Seats_Booked (Aggregator df)) =
     fold_right Z.add 0 (map Seats_Booked dated)) /\
  (len (Aggregator df) <= length dated)%nat /\
  (len (Aggregator df) = 0%nat <-> dated = []).
Proof.
  cbv zeta. unfold col_Seats_Booked, len, Aggregator. cbn [daily_rows].
  rewrite daily_totals_groupby.
  set (keys := map date_and_seats df).
  split; [| split; [| split]].
  - unfold groupby_sum. rewrite groupby_fold_total. subst keys.
    rewrite dropna_keys_dataset. reflexivity.
  - intros Hfit. rewrite <- dropna_keys_dataset. fold keys.
    pose proof (groupby_sum_increasing keys) as Hs.
    rewrite <- (total_by_dates (map fst (groupby_sum keys)) (groupby_sum keys))
      by (apply increasing_dates_NoDup, Hs || tauto).
    rewrite <- (total_by_dates (map fst (groupby_sum keys)) (dropna_keys keys)).
    + f_equal. apply map_ext. intros d. rewrite groupby_sum_seats.
      apply wrap64_id. subst keys. rewrite seats_on_dataset. apply Hfit.
    + apply increasing_dates_NoDup, Hs.
    + intros d Hd. apply groupby_sum_dates, dropna_keys_dates, Hd.
  - pose proof (groupby_fold_length (dropna_keys keys) []) as H.
    fold (groupby_sum keys) in H.
    rewrite <- (length_map snd (dropna_keys keys)) in H. subst keys.
    rewrite dropna_keys_dataset, length_map in H. exact H.
  - split.
    + intros Hlen. apply length_zero_iff_nil in Hlen.
      destruct (List.filter has_date df) as [| r dated] eqn:Hdated; [reflexivity |].
      exfalso.
      assert (Hr : In r (List.filter has_date df)) by (rewrite Hdated; left; reflexivity).
      apply filter_In in Hr as [Hr Hdate]. unfold has_date in Hdate.
      destruct (Date r) as [d |] eqn:Hd; [| discriminate].
      assert (Hin : In d (map fst (groupby_sum keys))).
      { apply groupby_sum_dates. subst keys. rewrite map_map. cbn.
        rewrite <- Hd. apply (in_map Date), Hr. }
      rewrite Hlen in Hin. destruct Hin.
    + intros Hdated.
      assert (Hnone : dropna_keys keys = []).
      { apply (map_eq_nil snd). subst keys. rewrite dropna_keys_dataset, Hdated.
        reflexivity. }
      unfold groupby_sum. rewrite Hnone. reflexivity.
Qed.

Lemma aggregation_conserves_seats_witness :
  fold_right Z.add 0 (col_Seats_Booked (Aggregator (undated 7 :: five_trips))) = 46 /\
  (len (Aggregator (undated 7 :: five_trips)) <= 5)%nat.
Proof.
  destruct (aggregation_conserves_seats (undated 7 :: five_trips))
    as (_ & Hexact & Hlen & _).
  split; [| exact Hlen].
  rewrite Hexact; [reflexivity |].
  intros d. unfold int64. cbn [List.filter five_trips].
  unfold on_date, undated, observation. cbn [Date].
  repeat match goal with |- context [?a =? d] => destruct (a =? d) end;
    vm_compute; (split; [discriminate | reflexivity]).
Defined.

(* ===================================================================== *)
(** * The forecasting page: dates, dependence on the data, failures *)
(* ===================================================================== *)

Lemma StronglySorted_app_lt (l1 l2 : list Z) :
  StronglySorted Z.lt (l1 ++ l2) ->
  forall x y, In x l1 -> In y l2 -> x < y.
Proof.
  induction l1 as [| a l1 IH]; intros Hs x y Hx Hy; [destruct Hx |].
  cbn in Hs. apply StronglySorted_inv in Hs as [Hs Hall].
  destruct Hx as [<- | Hx].
  - rewrite List.Forall_forall in Hall. apply Hall, in_or_app. right. exact Hy.
  - apply (IH Hs x y Hx Hy).
Qed.

Lemma StronglySorted_last_max (l : list Z) (d : Z) :
  StronglySorted Z.lt l -> l <> [] ->
  In (List.last l d) l /\ forall x, In x l -> x <= List.last l d.
Proof.
  intros Hs Hne. destruct (exists_last Hne) as (front & z & ->).
  rewrite last_last. split; [apply in_or_app; right; left; reflexivity |].
  intros x Hx. apply in_app_or in Hx as [Hx | [<- | []]]; [| lia].
  pose proof (StronglySorted_app_lt front [z] Hs x z Hx (or_introl eq_refl)). lia.
Qed.

Lemma date_range_shift (start : Z) (periods : nat) :
  date_range start (S periods) =
  start :: date_range (start + Timedelta 1) periods.
Proof.
  unfold date_range. cbn [seq map]. f_equal.
  - unfold Timedelta. cbn. lia.
  - rewrite <- seq_shift, map_map. apply map_ext. intros i.
    unfold Timedelta. lia.
Qed.

Lemma date_range_lower (start : Z) (periods : nat) :
  Forall (fun d => start <= d) (date_range start periods).
Proof.
  unfold date_range. apply List.Forall_forall. intros d Hd.
  apply in_map_iff in Hd as (i & <- & _). unfold Timedelta. lia.
Qed.

Lemma date_range_increasing (start : Z) (periods : nat) :
  StronglySorted Z.lt (date_range start periods).
Proof.
  revert start. induction periods as [| k IH]; intros start; [constructor |].
  rewrite date_range_shift. constructor; [apply IH |].
  eapply List.Forall_impl; [| apply date_range_lower].
  cbn. intros d Hd. unfold Timedelta in Hd. lia.
Qed.

Lemma Aggregator_dates (df : list RawObservation) (d : Z) :
  In d (col_Date (Aggregator df)) <-> In (Some d) (map Date df).
Proof.
  unfold col_Date, Aggregator. cbn [daily_rows].
  rewrite daily_totals_groupby, groupby_sum_dates, map_map. cbn. tauto.
Qed.

Lemma Aggregator_increasing (df : list RawObservation) :
  StronglySorted Z.lt (col_Date (Aggregator df)).
Proof.
  unfold col_Date, Aggregator. cbn [daily_rows].
  rewrite daily_totals_groupby. apply groupby_sum_increasing.
Qed.

Lemma fold_left_Rmax_spec (l : list R) (v : R) :
  let m := fold_left Rmax l v in
  (m = v \/ In m l) /\ (v <= m)%R /\ forall x, In x l -> (x <= m)%R.
Proof.
  revert v. induction l as [| a l IH]; intros v; cbv zeta.
  - cbn. split; [left; reflexivity |]. split; [lra | intros x []].
  - cbn [fold_left]. destruct (IH (Rmax v a)) as (Hin & Hge & Hall).
    pose proof (Rmax_l v a). pose proof (Rmax_r v a).
    split; [| split].
    + destruct Hin as [Heq | Hin]; [| right; right; exact Hin].
      rewrite Heq. unfold Rmax. destruct (Rle_dec v a); [right; left | left]; reflexivity.
    + lra.
    + intros x [<- | Hx]; [lra | apply Hall, Hx].
Qed.

Lemma fold_left_Rmin_spec (l : list R) (v : R) :
  let m := fold_left Rmin l v in
  (m = v \/ In m l) /\ (m <= v)%R /\ forall x, In x l -> (m <= x)%R.
Proof.
  revert v. induction l as [| a l IH]; intros v; cbv zeta.
  - cbn. split; [left; reflexivity |]. split; [lra | intros x []].
  - cbn [fold_left]. destruct (IH (Rmin v a)) as (Hin & Hge & Hall).
    pose proof (Rmin_l v a). pose proof (Rmin_r v a).
    split; [| split].
    + destruct Hin as [Heq | Hin]; [| right; right; exact Hin].
      rewrite Heq. unfold Rmin. destruct (Rle_dec v a); [left | right; left]; reflexivity.
    + lra.
    + intros x [<- | Hx]; [lra | apply Hall, Hx].
Qed.

Lemma key_insights_spec (values : list R) :
  values <> [] ->
  exists peak low,
    key_insights values = (Some peak, Some low) /\
    In peak values /\ In low values /\
    forall v, In v values -> (low <= v <= peak)%R.
Proof.
  destruct values as [| v rest]; [congruence | intros _].
  unfold key_insights, Series_max, Series_min.
  destruct (fold_left_Rmax_spec rest v) as (Hmax_in & Hmax_v & Hmax_all).
  destruct (fold_left_Rmin_spec rest v) as (Hmin_in & Hmin_v & Hmin_all).
  eexists _, _. split; [reflexivity |].
  split; [destruct Hmax_in as [-> | H]; [left; reflexivity | right; exact H] |].
  split; [destruct Hmin_in as [-> | H]; [left; reflexivity | right; exact H] |].
  intros x [<- | Hx]; split; auto.
Qed.

Section PageFacts.

Context (Model : Type)
        (adfuller : list Z -> result (Q * Q))
        (SARIMAX_fit : list Z -> Z * Z * Z -> Z * Z * Z * Z -> result Model)
        (get_forecast forecast : Model -> nat -> list R)
        (st_slider : nat -> nat -> nat -> nat).

Local Abbreviation run :=
  (demand_forecasting Model adfuller SARIMAX_fit get_forecast forecast st_slider).

(** The rows of the page's frames in terms of the aggregated rows. *)
Lemma page_rows (df : list RawObservation) (page : ForecastPage Model) :
  run df = Ok page ->
  let rows := daily_rows (Aggregator df) in
  let k := train_size (length rows) in
  daily_rows (df_daily page) = rows /\
  daily_rows (train page) = firstn k rows /\
  daily_rows (test page) = skipn k rows.
Proof.
  intros Hrun. cbv zeta.
  destruct (demand_forecasting_inv Model adfuller SARIMAX_fit get_forecast
              forecast st_slider df page Hrun)
    as (stat & _ & Hdaily & _ & Htrain & Htest & _).
  assert (Hrows : daily_rows (df_daily page) = daily_rows (Aggregator df)).
  { rewrite Hdaily. apply check_stationarity_rows. }
  split; [exact Hrows |].
  rewrite Htrain, Htest. unfold train_test_split, len. cbn [fst snd slice_to slice_from daily_rows].
  rewrite Hrows. split; reflexivity.
Qed.

(** X3. Every date of the training part is earlier than every date of
    the test part. *)
Theorem training_days_precede_test_days
    (df : list RawObservation) (page : ForecastPage Model) :
  run df = Ok page ->
  forall d d', In d (col_Date (train page)) -> In d' (col_Date (test page)) ->
               d < d'.
Proof.
  intros Hrun d d' Hd Hd'.
  destruct (page_rows df page Hrun) as (_ & Htrain & Htest).
  unfold col_Date in Hd, Hd'. rewrite Htrain in Hd. rewrite Htest in Hd'.
  rewrite <- firstn_map in Hd. rewrite <- skipn_map in Hd'.
  pose proof (Aggregator_increasing df) as Hs. unfold col_Date in Hs.
  rewrite <- (firstn_skipn (train_size (length (daily_rows (Aggregator df))))
                (map fst (daily_rows (Aggregator df)))) in Hs.
  exact (StronglySorted_app_lt _ _ Hs d d' Hd Hd').
Qed.

(** X4. The future dates start the day after the latest date of the
    dataset, wherever that row stands in the file; they increase strictly
    and all lie after every observed date. *)
Theorem future_dates_follow_every_observation
    (df : list RawObservation) (page : ForecastPage Model) :
  run df = Ok page ->
  exists latest,
    In (Some latest) (map Date df) /\
    (forall d, In (Some d) (map Date df) -> d <= latest) /\
    future_dates page =
      date_range (latest + Timedelta 1) (future_steps page) /\
    StronglySorted Z.lt (future_dates page) /\
    (forall d f, In (Some d) (map Date df) -> In f (future_dates page) -> d < f).
Proof.
  intros Hrun.
  destruct (demand_forecasting_inv Model adfuller SARIMAX_fit get_forecast
              forecast st_slider df page Hrun)
    as (stat & _ & _ & _ & _ & _ & _ & _ & _ & Hfuture).
  destruct (page_rows df page Hrun) as (Hrows & _).
  assert (Hcol : col_Date (df_daily page) = col_Date (Aggregator df)).
  { unfold col_Date. rewrite Hrows. reflexivity. }
  unfold forecast_future in Hfuture. rewrite Hcol in Hfuture.
  destruct (col_Date (Aggregator df)) as [| d0 ds] eqn:Hdates;
    [discriminate Hfuture |].
  assert (Hne : d0 :: ds <> []) by discriminate.
  rewrite (iloc_last_nonempty _ 0 Hne) in Hfuture. cbn [bind] in Hfuture.
  injection Hfuture as _ Hdates_eq.
  pose proof (Aggregator_increasing df) as Hs. rewrite Hdates in Hs.
  destruct (StronglySorted_last_max _ 0 Hs Hne) as [Hin Hmax].
  set (latest := List.last (d0 :: ds) 0) in *.
  assert (Hall : forall d, In (Some d) (map Date df) -> d <= latest).
  { intros d Hd. apply Hmax. rewrite <- Hdates. apply Aggregator_dates, Hd. }
  exists latest. split.
  { apply Aggregator_dates. rewrite Hdates. exact Hin. }
  split; [exact Hall |]. split; [symmetry; exact Hdates_eq |].
  rewrite <- Hdates_eq. split; [apply date_range_increasing |].
  intros d f Hd Hf.
  pose proof (date_range_lower (latest + Timedelta 1) (future_steps page)) as Hlow.
  rewrite List.Forall_forall in Hlow. specialize (Hlow f Hf).
  specialize (Hall d Hd). unfold Timedelta in Hlow. lia.
Qed.

Lemma page_seats (df : list RawObservation) (page : ForecastPage Model) :
  run df = Ok page ->
  let seats := col_Seats_Booked (Aggregator df) in
  let k := train_size (length seats) in
  col_Seats_Booked (train page) = firstn k seats /\
  col_Seats_Booked (test page) = skipn k seats.
Proof.
  intros Hrun. cbv zeta.
  destruct (page_rows df page Hrun) as (_ & Htrain & Htest).
  unfold col_Seats_Booked. rewrite Htrain, Htest, length_map, firstn_map, skipn_map.
  split; reflexivity.
Qed.

(** X8. Peak and low demand are defined (the slider gives at least 7
    steps), are values of the future forecast, and bound every value of
    it. *)
Theorem peak_and_low_demand_bound_the_forecast
    (df : list RawObservation) (page : ForecastPage Model) :
  (forall lo hi v, (lo <= v <= hi)%nat -> (lo <= st_slider lo hi v <= hi)%nat) ->
  (forall m k, length (forecast m k) = k) ->
  run df = Ok page ->
  exists peak_demand low_demand,
    key_insights (sarima_forecast_next page) =
      (Some peak_demand, Some low_demand) /\
    In peak_demand (sarima_forecast_next page) /\
    In low_demand (sarima_forecast_next page) /\
    (forall v, In v (sarima_forecast_next page) ->
               (low_demand <= v <= peak_demand)%R) /\
    (low_demand <= peak_demand)%R.
Proof.
  intros Hslider Hsteps Hrun.
  destruct (demand_forecasting_inv Model adfuller SARIMAX_fit get_forecast
              forecast st_slider df page Hrun)
    as (stat & _ & _ & _ & _ & _ & _ & _ & Hfs & Hfuture).
  unfold forecast_future in Hfuture.
  destruct (iloc_last _) as [last_date |] in Hfuture; [| discriminate].
  cbn [bind] in Hfuture. injection Hfuture as Hnext _.
  assert (Hne : sarima_forecast_next page <> []).
  { intros Hnil. pose proof (Hsteps (sarima_result page) (future_steps page)) as Hlen.
    rewrite Hnext, Hnil in Hlen. cbn in Hlen.
    pose proof (Hslider 7 90 30 ltac:(lia))%nat as Hrange.
    rewrite <- Hfs in Hrange. lia. }
  destruct (key_insights_spec _ Hne) as (peak & low & Heq & Hp & Hl & Hall).
  exists peak, low. split; [exact Heq |]. split; [exact Hp |].
  split; [exact Hl |]. split; [exact Hall |].
  destruct (Hall peak Hp). lra.
Qed.

End PageFacts.

(** X5. The fitted model and the evaluation forecast depend on the
    training window only: two runs, each with its own slider position, on
    datasets with the same number of days and the same first [train_size]
    daily totals give the same model and the same evaluation forecast,
    whatever their last days hold; they give the same future forecast when
    the slider stands at the same horizon in both. *)
Theorem forecasts_ignore_held_out_days
    (Model : Type)
    (adfuller : list Z -> result (Q * Q))
    (SARIMAX_fit : list Z -> Z * Z * Z -> Z * Z * Z * Z -> result Model)
    (get_forecast forecast : Model -> nat -> list R)
    (st_slider st_slider' : nat -> nat -> nat -> nat)
    (df1 df2 : list RawObservation) (page1 page2 : ForecastPage Model) :
  demand_forecasting Model adfuller SARIMAX_fit get_forecast forecast
    st_slider df1 = Ok page1 ->
  demand_forecasting Model adfuller SARIMAX_fit get_forecast forecast
    st_slider' df2 = Ok page2 ->
  let seats1 := col_Seats_Booked (Aggregator df1) in
  let seats2 := col_Seats_Booked (Aggregator df2) in
  length seats1 = length seats2 ->
  firstn (train_size (length seats1)) seats1 =
    firstn (train_size (length seats2)) seats2 ->
  sarima_result page1 = sarima_result page2 /\
  test_forecast_mean page1 = test_forecast_mean page2 /\
  (future_steps page1 = future_steps page2 ->
   sarima_forecast_next page1 = sarima_forecast_next page2).
Proof.
  intros Hrun1 Hrun2. cbv zeta. intros Hlen Htrain.
  destruct (demand_forecasting_inv Model adfuller SARIMAX_fit get_forecast
              forecast st_slider df1 page1 Hrun1)
    as (stat1 & _ & _ & _ & _ & _ & Hfit1 & Heval1 & Hsteps1 & Hfut1).
  destruct (demand_forecasting_inv Model adfuller SARIMAX_fit get_forecast
              forecast st_slider' df2 page2 Hrun2)
    as (stat2 & _ & _ & _ & _ & _ & Hfit2 & Heval2 & Hsteps2 & Hfut2).
  destruct (page_seats Model adfuller SARIMAX_fit get_forecast forecast
              st_slider df1 page1 Hrun1) as [Htr1 Hte1].
  destruct (page_seats Model adfuller SARIMAX_fit get_forecast forecast
              st_slider' df2 page2 Hrun2) as [Htr2 Hte2].
  assert (Hmodel : sarima_result page1 = sarima_result page2).
  { rewrite Htr1, Htrain, <- Htr2, Hfit2 in Hfit1. congruence. }
  split; [exact Hmodel |].
  assert (Htestlen : len (test page1) = len (test page2)).
  { rewrite <- !length_col_Seats_Booked, Hte1, Hte2, !length_skipn, Hlen.
    reflexivity. }
  split.
  - unfold evaluate in Heval1, Heval2.
    destruct (mean_squared_error _ _) as [mse1 |] in Heval1; [| discriminate].
    destruct (mean_squared_error _ _) as [mse2 |] in Heval2; [| discriminate].
    cbn [bind] in Heval1, Heval2.
    injection Heval1 as Hm1 _. injection Heval2 as Hm2 _.
    rewrite <- Hm1, <- Hm2, Hmodel, Htestlen. reflexivity.
  - unfold forecast_future in Hfut1, Hfut2.
    destruct (iloc_last _) as [l1 |] in Hfut1; [| discriminate].
    destruct (iloc_last _) as [l2 |] in Hfut2; [| discriminate].
    cbn [bind] in Hfut1, Hfut2.
    injection Hfut1 as Hn1 _. injection Hfut2 as Hn2 _.
    intros Hsame. rewrite <- Hn1, <- Hn2, Hmodel, Hsame. reflexivity.
Qed.

(* ===================================================================== *)
(** * The script as a whole *)
(* ===================================================================== *)

Lemma forallb_mem_string (cols header : list string) :
  forallb (fun c => mem_string c header) cols = true <->
  forall c, In c cols -> In c header.
Proof.
  rewrite forallb_forall. split; intros H c Hc; apply mem_string_In, H, Hc.
Qed.

Section AppFacts.

Context (Model : Type)
        (adfuller : list Z -> result (Q * Q))
        (SARIMAX_fit : list Z -> Z * Z * Z -> Z * Z * Z * Z -> result Model)
        (get_forecast forecast : Model -> nat -> list R)
        (st_slider : nat -> nat -> nat -> nat)
        (read_csv : string -> result DataFrame)
        (typed_rows : DataFrame -> list RawObservation)
        (st_image : string -> result unit).

Local Abbreviation app :=
  (run_app Model adfuller SARIMAX_fit get_forecast forecast st_slider
     read_csv typed_rows st_image).

(** X9. Without a dataset file, or with one that has the six columns but
    no row, every page - the upload page included - shows the error banner
    and stops; the store is left as it is. *)
Theorem no_page_runs_on_a_missing_or_empty_dataset
    (text : string) (frame : DataFrame) (page : Page)
    (uploaded_file : option string) :
  read_csv text = Ok frame ->
  (forall c, In c usecols -> In c (columns frame)) ->
  records frame = [] ->
  app (Some text) page uploaded_file =
    Ok (Some text, [st_error msg_empty]) /\
  app None page uploaded_file = Ok (None, [st_error msg_not_found]).
Proof.
  intros Hread Hcols Hrecords. split; [| reflexivity].
  unfold run_app, load_dataset, read_csv_usecols. rewrite Hread. cbn [bind].
  rewrite (proj2 (forallb_mem_string usecols (columns frame)) Hcols).
  cbn [bind records]. rewrite Hrecords. reflexivity.
Qed.

(** X10. A dataset file that lacks one of the six columns makes every
    page raise [ValueError]. *)
Theorem a_missing_column_stops_every_page
    (text : string) (frame : DataFrame) (c : string) (page : Page)
    (uploaded_file : option string) :
  read_csv text = Ok frame ->
  In c usecols ->
  ~ In c (columns frame) ->
  app (Some text) page uploaded_file = Raise ValueError.
Proof.
  intros Hread Hc Hmissing.
  unfold run_app, load_dataset, read_csv_usecols. rewrite Hread. cbn [bind].
  destruct (forallb _ usecols) eqn:Hall; [| reflexivity].
  exfalso. apply Hmissing.
  apply (proj1 (forallb_mem_string usecols (columns frame)) Hall), Hc.
Qed.

(** X11. A run of the script leaves the store as it was, except on the
    upload page with a file whose column set is that of [usecols]: then the
    uploaded rows are appended and the success banner is shown. *)
Theorem store_changes_only_by_an_accepted_upload
    (store : option string) (page : Page) (uploaded_file : option string)
    (store' : option string) (shown : list banner) :
  app store page uploaded_file = Ok (store', shown) ->
  store' = store \/
  (page = Upload_Data /\
   exists text content new_data,
     store = Some text /\
     uploaded_file = Some content /\
     read_csv content = Ok new_data /\
     (list_to_set (columns new_data) : gset string) = list_to_set usecols /\
     store' = Some (text ++ to_csv_body new_data)%string /\
     shown = [st_success msg_uploaded]).
Proof.
  unfold run_app.
  destruct (load_dataset read_csv store) as [[df | halted] | e] eqn:Hload;
    cbn [bind]; [| intros [= <- _]; left; reflexivity | discriminate].
  destruct store as [text |]; [| discriminate Hload].
  pose proof (load_dataset_columns read_csv text df Hload) as Hdf.
  destruct page.
  - intros [= <- _]. left. reflexivity.
  - intros [= <- _]. left. reflexivity.
  - destruct (for_each st_image eda_images); cbn [bind]; [| discriminate].
    intros [= <- _]. left. reflexivity.
  - destruct (demand_forecasting _ _ _ _ _ _ _); cbn [bind]; [| discriminate].
    intros [= <- _]. left. reflexivity.
  - cbn [file_text]. unfold upload_data.
    destruct uploaded_file as [content |]; [| intros [= <- _]; left; reflexivity].
    destruct (read_csv content) as [new_data | e] eqn:Hread; cbn [bind];
      [| discriminate].
    destruct (same_column_set (columns new_data) (columns df)) eqn:Hsame;
      cbn [bind fst snd]; intros [= <- <-]; [| left; reflexivity].
    right. split; [reflexivity |]. exists text, content, new_data.
    apply same_column_set_true in Hsame.
    repeat split; try reflexivity; try assumption. congruence.
Qed.

(** X12. An upload never removes or rewrites what the store holds, and
    rows are not de-duplicated: uploading an accepted file a second time
    appends its rows a second time. *)
Theorem repeated_upload_appends_again
    (df new_data : DataFrame) (store content : string)
    (store1 : string) (shown1 : list banner) :
  read_csv content = Ok new_data ->
  upload_data read_csv df store (Some content) = Ok (store1, shown1) ->
  (exists suffix, store1 = (store ++ suffix)%string) /\
  (shown1 = [st_success msg_uploaded] ->
   upload_data read_csv df store1 (Some content) =
     Ok ((store ++ to_csv_body new_data ++ to_csv_body new_data)%string,
         [st_success msg_uploaded])).
Proof.
  intros Hread. unfold upload_data. rewrite Hread. cbn [bind].
  destruct (same_column_set (columns new_data) (columns df));
    intros [= <- <-].
  - split; [eexists; reflexivity |]. intros _.
    rewrite append_assoc. reflexivity.
  - split; [exists EmptyString |].
    + symmetry. apply append_empty_r.
    + discriminate.
Qed.

End AppFacts.

(* ===================================================================== *)
(** * The lines of the store after an upload *)
(* ===================================================================== *)

Section CsvFacts.

(** X13. After an accepted upload of plain records to a store that ends
    in a line break, the lines of the store are its old lines followed by
    one line per uploaded record - the texts of its cells joined by commas,
    in the uploaded column order - and the store again ends in a line
    break. *)
Theorem accepted_upload_adds_one_line_per_record
    (read_csv : string -> result DataFrame) (df new_data : DataFrame)
    (text content : string) :
  read_csv content = Ok new_data ->
  (list_to_set (columns new_data) : gset string) = list_to_set (columns df) ->
  forallb plain_record (records new_data) = true ->
  exists store',
    upload_data read_csv df (text ++ newline) (Some content) =
      Ok (store', [st_success msg_uploaded]) /\
    split_on linefeed (text ++ newline) =
      split_on linefeed text ++ [EmptyString] /\
    split_on linefeed store' =
      split_on linefeed text ++ map plain_line (records new_data)
      ++ [EmptyString].
Proof.
  intros Hread Hset Hplain.
  eexists. split; [apply (upload_data_accepts read_csv df new_data _ content Hread Hset) |].
  split; [apply split_terminated_line |].
  rewrite split_after_terminated.
  destruct new_data as [cols rs]. cbn [records] in *.
  rewrite (body_lines cols rs Hplain). reflexivity.
Qed.


End CsvFacts.


(* ===================================================================== *)
(** * The chart *)
(* ===================================================================== *)



Section ChartFacts.

Context (Model : Type)
        (adfuller : list Z -> result (Q * Q))
        (SARIMAX_fit : list Z -> Z * Z * Z -> Z * Z * Z * Z -> result Model)
        (get_forecast forecast : Model -> nat -> list R)
        (st_slider : nat -> nat -> nat -> nat)
        (fittedvalues : Model -> list R).

Local Abbreviation run :=
  (demand_forecasting Model adfuller SARIMAX_fit get_forecast forecast st_slider).


End ChartFacts.

(* ===================================================================== *)
(** * Instances on the example data *)
(* ===================================================================== *)

Lemma stub_get_forecast_steps (m : Stub.Model) (k : nat) :
  length (Stub.get_forecast m k) = k.
Proof. apply repeat_length. Qed.

Lemma stub_forecast_steps (m : Stub.Model) (k : nat) :
  length (Stub.forecast m k) = k.
Proof. apply repeat_length. Qed.

Lemma stub_slider_range (lo hi v : nat) :
  (lo <= v <= hi)%nat -> (lo <= Stub.st_slider lo hi v <= hi)%nat.
Proof. intros Hv. exact Hv. Qed.

Lemma training_days_precede_test_days_witness :
  Timestamp 2023 1 3 < Timestamp 2023 1 4.
Proof.
  assert (Hrun : demand_forecasting Stub.Model Stub.adfuller Stub.SARIMAX_fit
                   Stub.get_forecast Stub.forecast Stub.st_slider five_trips
                 = Ok stub_page) by run_stub.
  assert (Hd : In (Timestamp 2023 1 3) (col_Date (train stub_page)))
    by (vm_compute; tauto).
  assert (Hd' : In (Timestamp 2023 1 4) (col_Date (test stub_page)))
    by (vm_compute; tauto).
  exact (training_days_precede_test_days Stub.Model Stub.adfuller
           Stub.SARIMAX_fit Stub.get_forecast Stub.forecast Stub.st_slider
           five_trips stub_page Hrun _ _ Hd Hd').
Defined.

Lemma future_dates_follow_every_observation_witness :
  exists latest,
    In (Some latest) (map Date five_trips) /\
    (forall d, In (Some d) (map Date five_trips) -> d <= latest) /\
    future_dates stub_page =
      date_range (latest + Timedelta 1) (future_steps stub_page) /\
    StronglySorted Z.lt (future_dates stub_page) /\
    (forall d f, In (Some d) (map Date five_trips) ->
                 In f (future_dates stub_page) -> d < f).
Proof.
  assert (Hrun : demand_forecasting Stub.Model Stub.adfuller Stub.SARIMAX_fit
                   Stub.get_forecast Stub.forecast Stub.st_slider five_trips
                 = Ok stub_page) by run_stub.
  exact (future_dates_follow_every_observation Stub.Model Stub.adfuller
           Stub.SARIMAX_fit Stub.get_forecast Stub.forecast Stub.st_slider
           five_trips stub_page Hrun).
Defined.

Lemma forecasts_ignore_held_out_days_witness :
  exists other,
    demand_forecasting Stub.Model Stub.adfuller Stub.SARIMAX_fit
      Stub.get_forecast Stub.forecast (fun lo _ _ => (lo + 23)%nat)
      five_trips_other_end = Ok other /\
    col_Seats_Booked (test other) = [99] /\
    sarima_result stub_page = sarima_result other /\
    test_forecast_mean stub_page = test_forecast_mean other /\
    sarima_forecast_next stub_page = sarima_forecast_next other.
Proof.
  assert (Hrun : demand_forecasting Stub.Model Stub.adfuller Stub.SARIMAX_fit
                   Stub.get_forecast Stub.forecast Stub.st_slider five_trips
                 = Ok stub_page) by run_stub.
  assert (Hother : { other |
            demand_forecasting Stub.Model Stub.adfuller Stub.SARIMAX_fit
              Stub.get_forecast Stub.forecast (fun lo _ _ => (lo + 23)%nat)
              five_trips_other_end = Ok other /\
            col_Seats_Booked (test other) = [99] /\
            future_steps stub_page = future_steps other }).
  { eexists. split; [run_stub | split; reflexivity]. }
  destruct Hother as (other & Hrun' & Htest & Hsame).
  assert (Hlen : length (col_Seats_Booked (Aggregator five_trips)) =
                 length (col_Seats_Booked (Aggregator five_trips_other_end)))
    by reflexivity.
  assert (Htrain :
    firstn (train_size (length (col_Seats_Booked (Aggregator five_trips))))
      (col_Seats_Booked (Aggregator five_trips)) =
    firstn (train_size (length (col_Seats_Booked (Aggregator five_trips_other_end))))
      (col_Seats_Booked (Aggregator five_trips_other_end)))
    by reflexivity.
  exists other. split; [exact Hrun' |]. split; [exact Htest |].
  destruct (forecasts_ignore_held_out_days Stub.Model Stub.adfuller
              Stub.SARIMAX_fit Stub.get_forecast Stub.forecast Stub.st_slider
              (fun lo _ _ => (lo + 23)%nat)
              five_trips five_trips_other_end stub_page other Hrun Hrun' Hlen Htrain)
    as (Hmodel & Hmean & Hnext).
  split; [exact Hmodel |]. split; [exact Hmean | exact (Hnext Hsame)].
Defined.

Lemma peak_and_low_demand_bound_the_forecast_witness :
  exists peak_demand low_demand,
    key_insights (sarima_forecast_next stub_page) =
      (Some peak_demand, Some low_demand) /\
    (low_demand <= peak_demand)%R.
Proof.
  assert (Hrun : demand_forecasting Stub.Model Stub.adfuller Stub.SARIMAX_fit
                   Stub.get_forecast Stub.forecast Stub.st_slider five_trips
                 = Ok stub_page) by run_stub.
  destruct (peak_and_low_demand_bound_the_forecast Stub.Model Stub.adfuller
              Stub.SARIMAX_fit Stub.get_forecast Stub.forecast Stub.st_slider
              five_trips stub_page stub_slider_range stub_forecast_steps Hrun)
    as (peak & low & Heq & _ & _ & _ & Hle).
  exists peak, low. split; [exact Heq | exact Hle].
Defined.

Lemma upload_check_compares_with_the_loaded_columns_witness :
  exists df,
    load_dataset StubApp.read_csv (Some wide_store) = Ok (Loaded df) /\
    upload_data StubApp.read_csv df wide_store (Some wide_upload) =
      Ok (wide_store, [st_error msg_mismatch]) /\
    upload_data StubApp.read_csv df wide_store (Some six_upload) =
      Ok ((wide_store ++ "02-01-2023,R7,11,6.5,40,120" ++ newline)%string,
          [st_success msg_uploaded]).
Proof.
  assert (Hfile : StubApp.read_csv wide_store = Ok wide_frame)
    by (vm_compute; reflexivity).
  assert (Hrecords : records wide_frame <> []) by discriminate.
  assert (Hcols : forall c, In c usecols -> In c (columns wide_frame))
    by (intros c Hc; apply in_or_app; left; exact Hc).
  assert (Hwide : StubApp.read_csv wide_upload = Ok wide_upload_frame)
    by (vm_compute; reflexivity).
  assert (Hsix : StubApp.read_csv six_upload = Ok six_frame)
    by (vm_compute; reflexivity).
  assert (Hin : In "Delay_Minutes"%string (columns wide_frame))
    by (apply in_or_app; right; left; reflexivity).
  assert (Hout : ~ In "Delay_Minutes"%string usecols).
  { cbn. intros H. repeat (destruct H as [H | H]; [discriminate H |]). exact H. }
  destruct (upload_check_compares_with_the_loaded_columns StubApp.read_csv
              wide_store wide_upload wide_frame wide_upload_frame
              Hfile Hrecords Hcols Hwide)
    as (df & Hload & _ & _ & _ & _ & Hextra & _).
  destruct (upload_check_compares_with_the_loaded_columns StubApp.read_csv
              wide_store six_upload wide_frame six_frame
              Hfile Hrecords Hcols Hsix)
    as (df' & Hload' & _ & _ & _ & _ & Hextra' & _).
  assert (Hsame : df' = df) by congruence. subst df'.
  exists df. split; [exact Hload |]. split.
  - exact (proj1 (Hextra "Delay_Minutes"%string Hin Hout) eq_refl).
  - exact (proj2 (proj2 (Hextra' "Delay_Minutes"%string Hin Hout) eq_refl)).
Defined.


Lemma no_page_runs_on_a_missing_or_empty_dataset_witness :
  run_app Stub.Model Stub.adfuller Stub.SARIMAX_fit Stub.get_forecast
    Stub.forecast Stub.st_slider StubApp.read_csv StubApp.typed_rows
    StubApp.st_image (Some header_only_store) Upload_Data (Some swapped_upload) =
    Ok (Some header_only_store, [st_error msg_empty]).
Proof.
  assert (Hread : StubApp.read_csv header_only_store =
                  Ok {| columns := usecols; records := [] |})
    by (vm_compute; reflexivity).
  assert (Hcols : forall c, In c usecols ->
                            In c (columns {| columns := usecols; records := [] |}))
    by (intros c Hc; exact Hc).
  exact (proj1 (no_page_runs_on_a_missing_or_empty_dataset Stub.Model
                  Stub.adfuller Stub.SARIMAX_fit Stub.get_forecast Stub.forecast
                  Stub.st_slider StubApp.read_csv StubApp.typed_rows
                  StubApp.st_image header_only_store _ Upload_Data
                  (Some swapped_upload) Hread Hcols eq_refl)).
Defined.

Lemma a_missing_column_stops_every_page_witness :
  run_app Stub.Model Stub.adfuller Stub.SARIMAX_fit Stub.get_forecast
    Stub.forecast Stub.st_slider StubApp.read_csv StubApp.typed_rows
    StubApp.st_image (Some short_upload) Home None = Raise ValueError.
Proof.
  assert (Hread : StubApp.read_csv short_upload = Ok short_frame)
    by (vm_compute; reflexivity).
  assert (Hc : In "Ticket_Price"%string usecols) by (vm_compute; tauto).
  assert (Hmissing : ~ In "Ticket_Price"%string (columns short_frame)).
  { cbn. intros H. repeat (destruct H as [H | H]; [discriminate H |]). exact H. }
  exact (a_missing_column_stops_every_page Stub.Model Stub.adfuller
           Stub.SARIMAX_fit Stub.get_forecast Stub.forecast Stub.st_slider
           StubApp.read_csv StubApp.typed_rows StubApp.st_image
           short_upload short_frame "Ticket_Price" Home None
           Hread Hc Hmissing).
Defined.

Lemma store_changes_only_by_an_accepted_upload_witness :
  Some (small_store ++ to_csv_body swapped_frame)%string = Some small_store \/
  (Upload_Data = Upload_Data /\
   exists text content new_data,
     Some small_store = Some text /\
     Some swapped_upload = Some content /\
     StubApp.read_csv content = Ok new_data /\
     (list_to_set (columns new_data) : gset string) = list_to_set usecols /\
     Some (small_store ++ to_csv_body swapped_frame)%string =
       Some (text ++ to_csv_body new_data)%string /\
     [st_success msg_uploaded] = [st_success msg_uploaded]).
Proof.
  assert (Hrun :
    run_app Stub.Model Stub.adfuller Stub.SARIMAX_fit Stub.get_forecast
      Stub.forecast Stub.st_slider StubApp.read_csv StubApp.typed_rows
      StubApp.st_image (Some small_store) Upload_Data (Some swapped_upload) =
    Ok (Some (small_store ++ to_csv_body swapped_frame)%string,
        [st_success msg_uploaded])) by (vm_compute; reflexivity).
  exact (store_changes_only_by_an_accepted_upload Stub.Model Stub.adfuller
           Stub.SARIMAX_fit Stub.get_forecast Stub.forecast Stub.st_slider
           StubApp.read_csv StubApp.typed_rows StubApp.st_image
           (Some small_store) Upload_Data (Some swapped_upload)
           _ _ Hrun).
Defined.

Lemma repeated_upload_appends_again_witness :
  upload_data StubApp.read_csv small_df
    (small_store ++ to_csv_body swapped_frame)%string (Some swapped_upload) =
  Ok ((small_store ++ to_csv_body swapped_frame ++ to_csv_body swapped_frame)%string,
      [st_success msg_uploaded]).
Proof.
  assert (Hread : StubApp.read_csv swapped_upload = Ok swapped_frame)
    by (vm_compute; reflexivity).
  assert (Hfirst :
    upload_data StubApp.read_csv small_df small_store (Some swapped_upload) =
    Ok ((small_store ++ to_csv_body swapped_frame)%string,
        [st_success msg_uploaded])) by (vm_compute; reflexivity).
  exact (proj2 (repeated_upload_appends_again StubApp.read_csv small_df
                  swapped_frame small_store swapped_upload _ _ Hread Hfirst)
               eq_refl).
Defined.

Lemma accepted_upload_adds_one_line_per_record_witness :
  exists store',
    upload_data StubApp.read_csv small_df (unterminated_store ++ newline)%string
      (Some swapped_upload) = Ok (store', [st_success msg_uploaded]) /\
    split_on linefeed store' =
      [store_header; "01-01-2023,R1,10,5.5,40,100";
       "R7,02-01-2023,11,6.5,40,120"; EmptyString]%string.
Proof.
  assert (Hread : StubApp.read_csv swapped_upload = Ok swapped_frame)
    by (vm_compute; reflexivity).
  assert (Hset : (list_to_set (columns swapped_frame) : gset string)
                 = list_to_set (columns small_df))
    by (apply same_column_set_true; vm_compute; reflexivity).
  assert (Hplain : forallb plain_record (records swapped_frame) = true)
    by (vm_compute; reflexivity).
  destruct (accepted_upload_adds_one_line_per_record StubApp.read_csv small_df
              swapped_frame unterminated_store swapped_upload Hread Hset Hplain)
    as (store' & Hupload & _ & Hlines).
  exists store'. split; [exact Hupload |].
  rewrite Hlines. vm_compute. reflexivity.
Defined.


